(** * Real-time connection and state synchronisation of the traffic dashboard

    A shallow embedding of
    - [handleResponse] and the class [WebSocketService] of
      [frontend/src/services/trafficAPI.ts], and
    - the message handler, the close and error handlers, [callApi], the
      dropzone's [onDrop] and the start/stop button of
      [frontend/src/components/TrafficDashboard.tsx],
    followed by the properties established about them. *)

From Stdlib Require Import Ascii String QArith Qminmax Qpower Lqa DecimalString.
From stdpp Require Import base option list strings gmap.

Set Warnings "-register-all".
Open Scope string_scope.

(** ** JavaScript values *)

Module JS.

(** The values a frame, a response body or a React state cell can hold:
    what [JSON.parse] produces, plus [undefined].  Numbers are kept as
    rationals; the program only tests them for truthiness and copies them. *)
Inductive jsval : Type :=
| JUndefined
| JNull
| JBool (b : bool)
| JNum (n : Q)
| JStr (s : string)
| JArr (items : list jsval)
| JObj (props : list (string * jsval)).

(** How a statement or a call ends: normally, or by a thrown exception. *)
Inductive Completion : Type := Normal | Abrupt.

(** [ToBoolean]. *)
Definition truthy (v : jsval) : bool :=
  match v with
  | JUndefined | JNull => false
  | JBool b => b
  | JNum n => negb (Qeq_bool n 0)
  | JStr s => negb (String.eqb s "")
  | JArr _ | JObj _ => true
  end.

Definition nullish (v : jsval) : bool :=
  match v with
  | JUndefined | JNull => true
  | _ => false
  end.

(** [a || b] and [a ?? b]. *)
Definition js_or (a b : jsval) : jsval := if truthy a then a else b.
Definition js_coalesce (a b : jsval) : jsval := if nullish a then b else a.

(** [typeof v === 'boolean']. *)
Definition is_boolean (v : jsval) : bool :=
  match v with JBool _ => true | _ => false end.

(** [v === 'literal']. *)
Definition strict_eq_str (v : jsval) (lit : string) : bool :=
  match v with JStr s => String.eqb s lit | _ => false end.

Fixpoint lookup_prop (k : string) (ps : list (string * jsval)) : jsval :=
  match ps with
  | [] => JUndefined
  | (k', v) :: ps' => if String.eqb k' k then v else lookup_prop k ps'
  end.

(** Defining property [k] in an object literal: an existing key keeps its
    place and takes the new value, a new key goes last. *)
Fixpoint set_prop (k : string) (v : jsval) (ps : list (string * jsval))
  : list (string * jsval) :=
  match ps with
  | [] => [(k, v)]
  | (k', v') :: ps' =>
      if String.eqb k' k then (k', v) :: ps' else (k', v') :: set_prop k v ps'
  end.

Definition index_key (i : nat) : string :=
  NilZero.string_of_uint (Nat.to_uint i).

Fixpoint chars (s : string) : list jsval :=
  match s with
  | EmptyString => []
  | String c s' => JStr (String c EmptyString) :: chars s'
  end.

Definition indexed (l : list jsval) : list (string * jsval) :=
  imap (fun i v => (index_key i, v)) l.

(** The own enumerable properties, as object spread [{...v}] copies them. *)
Definition own_enumerable (v : jsval) : list (string * jsval) :=
  match v with
  | JObj ps => ps
  | JArr l => indexed l
  | JStr s => indexed (chars s)
  | JUndefined | JNull | JBool _ | JNum _ => []
  end.

(** [v.k]: [None] stands for the [TypeError] of reading a property of
    [undefined] or [null].  Only own enumerable data properties are modelled,
    which is what the program reads: its keys are [type], [data],
    [system_status], [is_active], [emergency_type], [detected_lane],
    [total_vehicles], [emergency_mode_active] and [detail], none of them
    inherited from a prototype or built in ([length] of an array or a
    string, say, is not covered). *)
Definition get (v : jsval) (k : string) : option jsval :=
  if nullish v then None else Some (lookup_prop k (own_enumerable v)).

(** [v?.k], for the same keys. *)
Definition opt_chain (v : jsval) (k : string) : jsval :=
  if nullish v then JUndefined else lookup_prop k (own_enumerable v).

(** Whether the object has an own property [k]. *)
Definition has_prop (k : string) (ps : list (string * jsval)) : bool :=
  existsb (fun p => String.eqb (fst p) k) ps.

(** Whether [ToString(v)] returns, as when a template literal interpolates
    [v]; otherwise it throws a [TypeError].  It throws for an object with an
    own property [toString]: a value that came from JSON is not callable, so
    the conversion goes on to [valueOf], which is not callable either or is
    [Object.prototype.valueOf] and gives back the object, no primitive.
    Without that own property [Object.prototype.toString] answers.  For an
    array [Array.prototype.join] converts the elements, so it throws when it
    does for one of them. *)
Fixpoint stringifies (v : jsval) : bool :=
  match v with
  | JObj ps => negb (has_prop "toString" ps)
  | JArr items => forallb stringifies items
  | JUndefined | JNull | JBool _ | JNum _ | JStr _ => true
  end.

(** [String.prototype.toLowerCase], on the ASCII letters. *)
Definition lower_ascii (c : ascii) : ascii :=
  let n := nat_of_ascii c in
  if (65 <=? n)%nat && (n <=? 90)%nat then ascii_of_nat (n + 32) else c.

Fixpoint toLowerCase (s : string) : string :=
  match s with
  | EmptyString => EmptyString
  | String c s' => String (lower_ascii c) (toLowerCase s')
  end.

(** [String.prototype.includes]. *)
Fixpoint includes (s needle : string) : bool :=
  String.prefix needle s ||
  match s with
  | EmptyString => false
  | String _ s' => includes s' needle
  end.

End JS.

Import JS.

(** ** The request/response transport: [handleResponse] *)

Module Http.

(** A fetch [Response] as [handleResponse] uses it.  [json] is the outcome
    of [response.json()]: [None] when the promise rejects because the body is
    not JSON. *)
Record Response : Type := {
  status : Z;
  statusText : string;
  json : option jsval
}.

(** [response.ok]: the status is in the range 200-299. *)
Definition ok (r : Response) : bool :=
  (200 <=? status r)%Z && (status r <=? 299)%Z.

(** The promise [handleResponse] returns: fulfilled with a value, or
    rejected with [new Error(message)]; [message] is the argument given to
    the [Error] constructor. *)
Inductive Outcome : Type :=
| Resolved (value : jsval)
| Rejected (message : jsval).

Definition status_string (r : Response) : string :=
  NilZero.string_of_int (Z.to_int (status r)).

Definition handleResponse (r : Response) : Outcome :=
  if negb (ok r) then
    let errorData :=
      match json r with
      | Some body => body
      | None =>
          JObj [("detail", js_or (JStr (statusText r)) (JStr "Unknown fetch error"))]
      end in
    let errorMessage :=
      js_or (opt_chain errorData "detail")
            (JStr ("HTTP error! Status: " ++ status_string r)) in
    Rejected errorMessage
  else if (status r =? 204)%Z || (status r =? 202)%Z then
    Resolved (JObj [("status", JNum (inject_Z (status r)));
                    ("message", JStr (statusText r))])
  else
    match json r with
    | Some body => Resolved body
    | None => Rejected (JStr "Failed to parse API response JSON.")
    end.

End Http.

(** ** The push channel: class [WebSocketService] of trafficAPI.ts *)

Module WebSocketService.

(** [WebSocket.readyState]. *)
Inductive ReadyState : Type := CONNECTING | OPEN | CLOSING | CLOSED.

Definition is_open (r : ReadyState) : bool :=
  match r with OPEN => true | _ => false end.

(** A socket whose [close] event has not been dispatched yet. *)
Definition live (r : ReadyState) : bool :=
  match r with CLOSED => false | _ => true end.

Section Service.

(** [A] is the state of the application the message handler acts on.
    [JSON_parse] is the platform's [JSON.parse] ([None]: it throws), and
    [WebSocket_accepts] tells whether [new WebSocket(url)] returns a socket
    or throws. *)
Context {A : Type}.
Variable JSON_parse : string -> option jsval.
Variable WebSocket_accepts : string -> bool.

(** [type WebSocketMessageHandler = (data: any) => void]: a handler acts on
    the application state and may throw. *)
Definition WebSocketMessageHandler : Type := jsval -> A -> A * Completion.

(** What the service does to its surroundings. *)
Inductive Effect : Type :=
| NewWebSocket (u : string)
| CloseCall (socket : nat)
| Delivered (h : WebSocketMessageHandler) (data : jsval)
| ConsoleLog (text : string)
| ConsoleWarn (text : string)
| ConsoleError (text : string).

(** The fields of the class, then the part of the browser they refer to:
    every socket created so far with its ready state (a socket is named by
    its position), the pending timeouts with their delays, the next timer id
    (ids are non-zero), the application state and the effects so far. *)
Record State : Type := {
  ws : option nat;
  url : string;
  messageHandler : option WebSocketMessageHandler;
  reconnectIntervalId : option nat;
  reconnectDelay : Q;
  maxReconnectDelay : Q;
  sockets : list ReadyState;
  timers : gmap nat Q;
  nextTimer : nat;
  app : A;
  effects : list Effect
}.

Definition set_ws (v : option nat) (st : State) : State :=
  {| ws := v; url := url st; messageHandler := messageHandler st;
     reconnectIntervalId := reconnectIntervalId st;
     reconnectDelay := reconnectDelay st;
     maxReconnectDelay := maxReconnectDelay st; sockets := sockets st;
     timers := timers st; nextTimer := nextTimer st; app := app st;
     effects := effects st |}.

Definition set_messageHandler (v : option WebSocketMessageHandler)
    (st : State) : State :=
  {| ws := ws st; url := url st; messageHandler := v;
     reconnectIntervalId := reconnectIntervalId st;
     reconnectDelay := reconnectDelay st;
     maxReconnectDelay := maxReconnectDelay st; sockets := sockets st;
     timers := timers st; nextTimer := nextTimer st; app := app st;
     effects := effects st |}.

Definition set_reconnectIntervalId (v : option nat) (st : State) : State :=
  {| ws := ws st; url := url st; messageHandler := messageHandler st;
     reconnectIntervalId := v; reconnectDelay := reconnectDelay st;
     maxReconnectDelay := maxReconnectDelay st; sockets := sockets st;
     timers := timers st; nextTimer := nextTimer st; app := app st;
     effects := effects st |}.

Definition set_reconnectDelay (v : Q) (st : State) : State :=
  {| ws := ws st; url := url st; messageHandler := messageHandler st;
     reconnectIntervalId := reconnectIntervalId st; reconnectDelay := v;
     maxReconnectDelay := maxReconnectDelay st; sockets := sockets st;
     timers := timers st; nextTimer := nextTimer st; app := app st;
     effects := effects st |}.

Definition set_sockets (v : list ReadyState) (st : State) : State :=
  {| ws := ws st; url := url st; messageHandler := messageHandler st;
     reconnectIntervalId := reconnectIntervalId st;
     reconnectDelay := reconnectDelay st;
     maxReconnectDelay := maxReconnectDelay st; sockets := v;
     timers := timers st; nextTimer := nextTimer st; app := app st;
     effects := effects st |}.

Definition set_timers (v : gmap nat Q) (st : State) : State :=
  {| ws := ws st; url := url st; messageHandler := messageHandler st;
     reconnectIntervalId := reconnectIntervalId st;
     reconnectDelay := reconnectDelay st;
     maxReconnectDelay := maxReconnectDelay st; sockets := sockets st;
     timers := v; nextTimer := nextTimer st; app := app st;
     effects := effects st |}.

Definition set_nextTimer (v : nat) (st : State) : State :=
  {| ws := ws st; url := url st; messageHandler := messageHandler st;
     reconnectIntervalId := reconnectIntervalId st;
     reconnectDelay := reconnectDelay st;
     maxReconnectDelay := maxReconnectDelay st; sockets := sockets st;
     timers := timers st; nextTimer := v; app := app st;
     effects := effects st |}.

Definition set_app (v : A) (st : State) : State :=
  {| ws := ws st; url := url st; messageHandler := messageHandler st;
     reconnectIntervalId := reconnectIntervalId st;
     reconnectDelay := reconnectDelay st;
     maxReconnectDelay := maxReconnectDelay st; sockets := sockets st;
     timers := timers st; nextTimer := nextTimer st; app := v;
     effects := effects st |}.

Definition emit (e : Effect) (st : State) : State :=
  {| ws := ws st; url := url st; messageHandler := messageHandler st;
     reconnectIntervalId := reconnectIntervalId st;
     reconnectDelay := reconnectDelay st;
     maxReconnectDelay := maxReconnectDelay st; sockets := sockets st;
     timers := timers st; nextTimer := nextTimer st; app := app st;
     effects := effects st ++ [e] |}.

(** *** The browser's side *)

(** [setTimeout(callback, delay)]: the callback is always the retry of
    [scheduleReconnect], so a pending timeout is its id and its delay. *)
Definition setTimeout (delay : Q) (st : State) : nat * State :=
  let t := nextTimer st in
  (t, set_nextTimer (S t) (set_timers (<[t := delay]> (timers st)) st)).

(** [clearTimeout(t)]: nothing happens when [t] is not pending. *)
Definition clearTimeout (t : nat) (st : State) : State :=
  set_timers (delete t (timers st)) st.

Definition readyState (s : nat) (st : State) : option ReadyState :=
  sockets st !! s.

(** [socket.close(code, reason)]: a socket that is connecting or open
    starts closing, its [close] event follows later; otherwise nothing. *)
Definition socket_close (s : nat) (st : State) : State :=
  match readyState s st with
  | Some CONNECTING | Some OPEN =>
      emit (CloseCall s) (set_sockets (<[s := CLOSING]> (sockets st)) st)
  | _ => emit (CloseCall s) st
  end.

(** *** The methods and the socket's event handlers

    [sendMessage], which reads [ws] and writes no field, follows in
    [Channel]. *)

Definition clearReconnectInterval (st : State) : State :=
  match reconnectIntervalId st with
  | Some t => set_reconnectIntervalId None (clearTimeout t st)
  | None => st
  end.

Definition scheduleReconnect (st : State) : State :=
  let st := clearReconnectInterval st in
  let '(t, st) := setTimeout (reconnectDelay st) st in
  set_reconnectIntervalId (Some t) st.

Definition connected (st : State) : bool :=
  match ws st with
  | Some s => match readyState s st with Some r => is_open r | None => false end
  | None => false
  end.

Definition connect (st : State) : State :=
  if connected st then emit (ConsoleLog "[WS] Already connected.") st
  else
    let st := emit (ConsoleLog "[WS] Attempting to connect to") st in
    let st := emit (NewWebSocket (url st)) st in
    if WebSocket_accepts (url st) then
      set_ws (Some (length (sockets st)))
        (set_sockets (sockets st ++ [CONNECTING]) st)
    else
      scheduleReconnect
        (emit (ConsoleError "[WS] Failed to create WebSocket instance:") st).

(** The callback armed by [scheduleReconnect]. *)
Definition retry (st : State) : State :=
  let st :=
    set_reconnectDelay
      (Qmin (maxReconnectDelay st) (reconnectDelay st * 1.5)) st in
  connect (emit (ConsoleLog "[WS] Retrying connection in") st).

Definition onopen (st : State) : State :=
  let st := emit (ConsoleLog "[WS] Connection established.") st in
  clearReconnectInterval (set_reconnectDelay 5000 st).

Definition onmessage (raw : string) (st : State) : State :=
  match JSON_parse raw with
  | Some data =>
      match messageHandler st with
      | Some h =>
          let '(a, c) := h data (app st) in
          let st := set_app a (emit (Delivered h data) st) in
          match c with
          | Normal => st
          | Abrupt => emit (ConsoleError "[WS] Failed to parse message:") st
          end
      | None =>
          emit (ConsoleWarn "[WS] Message received but no handler is set.") st
      end
  | None => emit (ConsoleError "[WS] Failed to parse message:") st
  end.

Definition onerror (st : State) : State :=
  emit (ConsoleError "[WS] WebSocket error:") st.

Definition onclose (st : State) : State :=
  let st := emit (ConsoleLog "[WS] Connection closed. Attempting reconnect...") st in
  scheduleReconnect (set_ws None st).

Definition onMessage (handler : WebSocketMessageHandler) (st : State) : State :=
  set_messageHandler (Some handler) st.

Definition disconnect (st : State) : State :=
  let st := emit (ConsoleLog "[WS] Disconnecting manually...") st in
  let st := clearReconnectInterval st in
  let st := set_messageHandler None st in
  match ws st with
  | Some s => set_ws None (socket_close s st)
  | None => st
  end.

Definition isConnected (st : State) : bool := connected st.

(** [new WebSocketService(url)]: the field initialisers, then [connect]. *)
Definition create (u : string) (a : A) : State :=
  connect
    {| ws := None; url := u; messageHandler := None;
       reconnectIntervalId := None; reconnectDelay := 5000;
       maxReconnectDelay := 30000; sockets := []; timers := ∅;
       nextTimer := 1; app := a; effects := [] |}.

(** *** The event loop

    One turn is an event of a socket, a timeout that fires, or a call of a
    public method.  The browser dispatches [open] to a connecting socket,
    [message] to an open one, [close] (once) and [error] to a socket that is
    not closed yet, and fires pending timeouts only; anything else is no
    turn at all.  [SocketClosing] is the server starting the closing
    handshake on an open socket: the browser sets [readyState] to [CLOSING]
    and runs no handler, the [close] event comes later.  The browser sets
    [readyState] to [CLOSED] in the task that dispatches [close]; an [error]
    event, which it dispatches in that task just before, is a turn of its
    own here, and its handler reads no state. *)
Inductive Event : Type :=
| SocketOpen (s : nat)
| SocketMessage (s : nat) (raw : string)
| SocketError (s : nat)
| SocketClosing (s : nat)
| SocketClose (s : nat)
| TimerFires (t : nat)
| CallOnMessage (h : WebSocketMessageHandler)
| CallDisconnect.

Definition step (st : State) (ev : Event) : State :=
  match ev with
  | SocketOpen s =>
      match readyState s st with
      | Some CONNECTING => onopen (set_sockets (<[s := OPEN]> (sockets st)) st)
      | _ => st
      end
  | SocketMessage s raw =>
      match readyState s st with
      | Some OPEN => onmessage raw st
      | _ => st
      end
  | SocketError s =>
      match readyState s st with
      | Some r => if live r then onerror st else st
      | None => st
      end
  | SocketClosing s =>
      match readyState s st with
      | Some OPEN => set_sockets (<[s := CLOSING]> (sockets st)) st
      | _ => st
      end
  | SocketClose s =>
      match readyState s st with
      | Some r =>
          if live r then onclose (set_sockets (<[s := CLOSED]> (sockets st)) st)
          else st
      | None => st
      end
  | TimerFires t =>
      match timers st !! t with
      | Some _ => retry (clearTimeout t st)
      | None => st
      end
  | CallOnMessage h => onMessage h st
  | CallDisconnect => disconnect st
  end.

Definition run (st : State) (evs : list Event) : State :=
  foldl step st evs.

(** *** Observations *)

Definition is_attempt (e : Effect) : bool :=
  match e with NewWebSocket _ => true | _ => false end.

(** The number of connect attempts made so far: calls of [new WebSocket]. *)
Definition attempts (st : State) : nat :=
  length (filter (fun e => is_attempt e = true) (effects st)).

Definition is_delivery (e : Effect) : bool :=
  match e with Delivered _ _ => true | _ => false end.

(** The messages handed to application code so far. *)
Definition deliveries (st : State) : list Effect :=
  filter (fun e => is_delivery e = true) (effects st).

(** The number of sockets that are not closed. *)
Definition live_sockets (st : State) : nat :=
  length (filter (fun r => live r = true) (sockets st)).

(** The delay of the pending reconnect timeout, if one is pending. *)
Definition scheduled_delay (st : State) : option Q :=
  match reconnectIntervalId st with
  | Some t => timers st !! t
  | None => None
  end.

(** At most one thing is outstanding: either no timeout is pending and at
    most one socket is not closed, or every socket is closed and the one
    pending timeout is the one the service remembers. *)
Definition exclusive (st : State) : Prop :=
  (timers st = ∅ /\ live_sockets st <= 1)%nat \/
  (exists t d, timers st = {[t := d]} /\ reconnectIntervalId st = Some t /\
               live_sockets st = 0%nat).

(** Nothing is outstanding: no timeout is pending and every socket is
    closed. *)
Definition quiescent (st : State) : Prop :=
  timers st = ∅ /\ live_sockets st = 0%nat.

(** [st'] has the handler slot and the application state of [st], and no
    message was delivered in between. *)
Definition silent (st st' : State) : Prop :=
  messageHandler st' = messageHandler st /\ app st' = app st /\
  deliveries st' = deliveries st.

(** The values the reconnect delay takes, in ms.  Each of them, and each
    product by 1.5 the code forms from them, is a binary64 number, so the
    arithmetic of the source on them is exact and rationals model it. *)
Definition delay_value (d : Q) : Prop :=
  d == 5000 \/ d == 7500 \/ d == 11250 \/ d == 16875 \/ d == 25312.5 \/
  d == 30000.

(** *** Connection failures

    A failure is the [close] event of the socket the service holds; the
    retry is the pending timeout firing.  [cycle] is a failure followed by
    its retry. *)
Definition fail (st : State) : State :=
  match ws st with
  | Some s => step st (SocketClose s)
  | None => st
  end.

Definition fire (st : State) : State :=
  match reconnectIntervalId st with
  | Some t => step st (TimerFires t)
  | None => st
  end.

(** The state right after [n] failures in a row: before each failure the
    retry left pending by the one before it, if any, has fired. *)
Fixpoint failures (n : nat) (st : State) : State :=
  match n with
  | O => st
  | S n' => fail (fire (failures n' st))
  end.

(** A service that holds a socket which is not closed, has no retry
    pending, and whose url the [WebSocket] constructor accepts. *)
Definition holds_socket (st : State) : Prop :=
  WebSocket_accepts (url st) = true /\
  scheduled_delay st = None /\
  exists s r, ws st = Some s /\ readyState s st = Some r /\ live r = true.

Definition is_call_onMessage (ev : Event) : bool :=
  match ev with CallOnMessage _ => true | _ => false end.

End Service.

End WebSocketService.

(** ** The dashboard: component [TrafficDashboard] *)

Module Dashboard.

Inductive ActiveTabType : Type := live_tab | detection_tab | analytics_tab.

(** The cells of [useState]. [intersectionStatus], [detectionResults] and
    [analyticsData] hold whatever was stored in them ([null] at first);
    [isSimulationRunning] is [boolean | null]. *)
Record DashboardState : Type := {
  intersectionStatus : jsval;
  detectionResults : jsval;
  analyticsData : jsval;
  isSimulationRunning : option bool;
  isLoading : bool;
  isConnecting : bool;
  activeTab : ActiveTabType
}.

(** The functions of [TrafficAPI] the dashboard calls; a file is named by a
    string. *)
Inductive ApiCall : Type :=
| getIntersectionStatus
| detectVehicles (file : string)
| startSimulation
| stopSimulation
| getAnalyticsSummary (period : string).

Inductive ToastKind : Type := ToastSuccess | ToastError | ToastLoading | ToastPlain.

(** What the dashboard does besides updating its state: notifications
    (with the values interpolated in the text), console output, and calls of
    a request function. *)
Inductive Effect : Type :=
| Toast (kind : ToastKind) (text : string) (args : list jsval)
| Console (text : string)
| Invoke (call : ApiCall).

Record Dashboard : Type := {
  state : DashboardState;
  effects : list Effect
}.

Definition initialState : DashboardState :=
  {| intersectionStatus := JNull; detectionResults := JNull;
     analyticsData := JNull; isSimulationRunning := None;
     isLoading := false; isConnecting := true; activeTab := live_tab |}.

Definition mount : Dashboard := {| state := initialState; effects := [] |}.

Definition emit (e : Effect) (d : Dashboard) : Dashboard :=
  {| state := state d; effects := effects d ++ [e] |}.

Definition update (f : DashboardState -> DashboardState) (d : Dashboard)
  : Dashboard :=
  {| state := f (state d); effects := effects d |}.

(** The state setters; [updateIntersectionStatus] is
    [setIntersectionStatus] given an updater function. *)
Definition updateIntersectionStatus (f : jsval -> jsval) : Dashboard -> Dashboard :=
  update (fun s =>
    {| intersectionStatus := f (intersectionStatus s);
       detectionResults := detectionResults s;
       analyticsData := analyticsData s;
       isSimulationRunning := isSimulationRunning s;
       isLoading := isLoading s; isConnecting := isConnecting s;
       activeTab := activeTab s |}).

Definition setIntersectionStatus (v : jsval) : Dashboard -> Dashboard :=
  updateIntersectionStatus (fun _ => v).

Definition setDetectionResults (v : jsval) : Dashboard -> Dashboard :=
  update (fun s =>
    {| intersectionStatus := intersectionStatus s;
       detectionResults := v;
       analyticsData := analyticsData s;
       isSimulationRunning := isSimulationRunning s;
       isLoading := isLoading s; isConnecting := isConnecting s;
       activeTab := activeTab s |}).

Definition setIsSimulationRunning (v : bool) : Dashboard -> Dashboard :=
  update (fun s =>
    {| intersectionStatus := intersectionStatus s;
       detectionResults := detectionResults s;
       analyticsData := analyticsData s;
       isSimulationRunning := Some v;
       isLoading := isLoading s; isConnecting := isConnecting s;
       activeTab := activeTab s |}).

Definition setIsLoading (v : bool) : Dashboard -> Dashboard :=
  update (fun s =>
    {| intersectionStatus := intersectionStatus s;
       detectionResults := detectionResults s;
       analyticsData := analyticsData s;
       isSimulationRunning := isSimulationRunning s;
       isLoading := v; isConnecting := isConnecting s;
       activeTab := activeTab s |}).

Definition setIsConnecting (v : bool) : Dashboard -> Dashboard :=
  update (fun s =>
    {| intersectionStatus := intersectionStatus s;
       detectionResults := detectionResults s;
       analyticsData := analyticsData s;
       isSimulationRunning := isSimulationRunning s;
       isLoading := isLoading s; isConnecting := v;
       activeTab := activeTab s |}).

Definition setActiveTab (v : ActiveTabType) : Dashboard -> Dashboard :=
  update (fun s =>
    {| intersectionStatus := intersectionStatus s;
       detectionResults := detectionResults s;
       analyticsData := analyticsData s;
       isSimulationRunning := isSimulationRunning s;
       isLoading := isLoading s; isConnecting := isConnecting s;
       activeTab := v |}).

(** *** The message handler given to [service.onMessage] *)

(** [x?.system_status?.toLowerCase().includes('operational')]: [undefined]
    when the chain stops short, a boolean when the status is a string, and a
    [TypeError] ([None]) when it is anything else, which has no
    [toLowerCase]. *)
Definition isRunning (x : jsval) : option jsval :=
  match opt_chain x "system_status" with
  | JUndefined | JNull => Some JUndefined
  | JStr s => Some (JBool (includes (toLowerCase s) "operational"))
  | _ => None
  end.

(** The body of the handler's [try]: the state it leaves, and whether it
    threw.  The texts of the alert notification and of the warning about an
    unknown type interpolate values of the frame, which throws for a value
    that does not convert to a string; in the alert branch the snapshot
    update is queued before that. *)
Definition process (data : jsval) (d : Dashboard) : Dashboard * Completion :=
  match get data "type" with
  | None => (d, Abrupt)
  | Some type =>
      if strict_eq_str type "intersection_status" then
        match get data "data" with
        | None => (d, Abrupt)
        | Some payload =>
            let d := setIntersectionStatus payload d in
            match isRunning payload with
            | Some (JBool b) => (setIsSimulationRunning b d, Normal)
            | Some _ => (d, Normal)
            | None => (d, Abrupt)
            end
        end
      else if strict_eq_str type "vehicle_detection" then
        match get data "data" with
        | None => (d, Abrupt)
        | Some payload => (setDetectionResults payload d, Normal)
        end
      else if strict_eq_str type "emergency_alert" then
        match get data "data" with
        | None => (d, Abrupt)
        | Some payload =>
            let is_active := opt_chain payload "is_active" in
            let d :=
              updateIntersectionStatus
                (fun prev =>
                   JObj (set_prop "emergency_mode_active"
                           (js_coalesce is_active (JBool false))
                           (own_enumerable (js_coalesce prev (JObj [])))))
                d in
            if truthy is_active then
              match get payload "emergency_type", get payload "detected_lane" with
              | Some ty, Some lane =>
                  if stringifies ty && stringifies lane then
                    (emit (Toast ToastError "Emergency: in lane!" [ty; lane]) d, Normal)
                  else (d, Abrupt)
              | _, _ => (d, Abrupt)
              end
            else
              (emit (Toast ToastPlain "Emergency situation resolved." []) d, Normal)
        end
      else if stringifies type then
        (emit (Console "[TrafficDashboard] Received unknown WebSocket message type:") d,
         Normal)
      else (d, Abrupt)
  end.

Definition onMessage (data : jsval) (d : Dashboard) : Dashboard * Completion :=
  if negb (truthy data) then
    (emit (Console "[TrafficDashboard] Received invalid WebSocket message structure:") d,
     Normal)
  else
    match get data "type" with
    | None => (d, Abrupt)
    | Some type =>
        if negb (truthy type) then
          (emit (Console "[TrafficDashboard] Received invalid WebSocket message structure:") d,
           Normal)
        else
          match process data d with
          | (d', Normal) => (d', Normal)
          | (d', Abrupt) =>
              (emit (Console "[TrafficDashboard] Error processing WebSocket message:") d',
               Normal)
          end
    end.

(** *** The close and error handlers *)

Definition onClose (code : Z) (d : Dashboard) : Dashboard :=
  let d := emit (Console "[TrafficDashboard] WebSocket closed:") d in
  let d :=
    if negb (code =? 1000)%Z && negb (code =? 1001)%Z then
      emit (Toast ToastError "Real-time connection lost. Attempting to reconnect..." []) d
    else emit (Console "[TrafficDashboard] WebSocket closed cleanly.") d in
  setIntersectionStatus JNull
    (setIsSimulationRunning false (setIsConnecting true d)).

(** [seen] is the render whose [isConnecting] the handler closed over. *)
Definition onError (seen : DashboardState) (d : Dashboard) : Dashboard :=
  let d := emit (Console "[TrafficDashboard] WebSocket error:") d in
  let d :=
    if isConnecting seen then
      emit (Toast ToastError "WebSocket connection error. Check if backend is running." []) d
    else d in
  setIntersectionStatus JNull
    (setIsSimulationRunning false (setIsConnecting true d)).

(** *** [fetchInitialStatus]: up to the [await], then its two ways on *)

Definition fetchInitialStatus (seen : DashboardState) (d : Dashboard) : Dashboard :=
  if isLoading seen || (truthy (intersectionStatus seen) && negb (isConnecting seen))
  then d
  else
    let d := emit (Console "Fetching initial intersection status via API...") d in
    emit (Invoke getIntersectionStatus) (setIsLoading true d).

Definition fetchInitialStatus_failed (d : Dashboard) : Dashboard :=
  let d := emit (Console "Failed to fetch initial status:") d in
  let d := emit (Toast ToastError "Could not fetch initial traffic status from API." []) d in
  setIsLoading false
    (setIntersectionStatus JNull (setIsSimulationRunning false d)).

Definition fetchInitialStatus_fetched (status : jsval) (d : Dashboard) : Dashboard :=
  let d := setIntersectionStatus status d in
  match isRunning status with
  | Some r =>
      let d := match r with JBool b => setIsSimulationRunning b d | _ => d end in
      setIsLoading false (emit (Console "Initial status fetched:") d)
  | None => fetchInitialStatus_failed d
  end.

Definition onOpen (seen : DashboardState) (d : Dashboard) : Dashboard :=
  let d := emit (Console "[TrafficDashboard] WebSocket Connected.") d in
  let d := emit (Toast ToastSuccess "Real-time connection established!" []) d in
  fetchInitialStatus seen (setIsConnecting false d).

(** *** Commands: [callApi] and the dropzone's [onDrop]

    Each is split at its [await]: the part that runs when it is called, and
    the two continuations, for the promise fulfilled and rejected. *)

Definition callApi (apiCall : ApiCall) (loadingMsg : string) (d : Dashboard)
  : Dashboard :=
  let d := setIsLoading true d in
  let d := emit (Toast ToastLoading loadingMsg []) d in
  emit (Invoke apiCall) d.

Definition callApi_fulfilled (successMsg : string) (d : Dashboard) : Dashboard :=
  setIsLoading false (emit (Toast ToastSuccess successMsg []) d).

(** [message] is the [message] of the error the promise was rejected
    with: the request functions reject with an [Error], whose [message] is a
    string (it may be empty), so the text with it interpolated is always
    made. *)
Definition callApi_rejected (errorMsg : string) (message : jsval) (d : Dashboard)
  : Dashboard :=
  let d :=
    emit (Toast ToastError errorMsg [js_or message (JStr "Unknown error")]) d in
  setIsLoading false (emit (Console errorMsg) d).

Definition onDrop (acceptedFiles : list string) (d : Dashboard) : Dashboard :=
  match acceptedFiles with
  | [] => emit (Toast ToastError "No valid image file selected." []) d
  | file :: _ =>
      let d := setIsLoading true d in
      let d := emit (Toast ToastLoading "Uploading & analyzing image..." []) d in
      emit (Invoke (detectVehicles file)) d
  end.

(** [message] is, again, the [message] of the error caught. *)
Definition onDrop_rejected (message : jsval) (d : Dashboard) : Dashboard :=
  let d :=
    emit (Toast ToastError "Image analysis failed:"
            [js_or message (JStr "Check console for details.")]) d in
  setIsLoading false (emit (Console "Detection API error:") d).

(** Reading [result.total_vehicles] of a [null] result throws inside the
    [try], after the result was stored, and so does interpolating a count
    that does not convert to a string; the [catch] then runs with the
    [TypeError], whose message is a text of the engine's. *)
Definition onDrop_fulfilled (result : jsval) (d : Dashboard) : Dashboard :=
  let d := setDetectionResults result d in
  match get result "total_vehicles" with
  | Some n =>
      let count := js_coalesce n (JNum 0) in
      if stringifies count then
        let d :=
          emit (Toast ToastSuccess "Analysis complete! vehicles found." [count]) d in
        setIsLoading false (setActiveTab detection_tab d)
      else onDrop_rejected (JStr "Cannot convert object to primitive value") d
  | None => onDrop_rejected (JStr "Cannot read properties of null") d
  end.

(** [handleStartSimulation] and [handleStopSimulation] up to their [await];
    the frame each hands to the message handler once the call is fulfilled
    is a turn of the handler like any other. *)
Definition handleStartSimulation : Dashboard -> Dashboard :=
  callApi startSimulation "Requesting simulation start...".

Definition handleStopSimulation : Dashboard -> Dashboard :=
  callApi stopSimulation "Requesting simulation stop...".

(** *** The controls

    The start/stop button carries
    [disabled={isLoading || isConnecting || isSimulationRunning === null}]
    and the dropzone [disabled: isLoading]; a disabled control runs no
    handler. *)
Definition button_disabled (s : DashboardState) : bool :=
  isLoading s || isConnecting s ||
  match isSimulationRunning s with None => true | Some _ => false end.

Definition click_button (d : Dashboard) : Dashboard :=
  if button_disabled (state d) then d
  else
    match isSimulationRunning (state d) with
    | Some true => handleStopSimulation d
    | _ => handleStartSimulation d
    end.

Definition dropzone_disabled (s : DashboardState) : bool := isLoading s.

Definition drop (files : list string) (d : Dashboard) : Dashboard :=
  if dropzone_disabled (state d) then d else onDrop files d.

(** *** Observations *)

(** [intersectionStatus?.emergency_mode_active], which the view shows as
    "Emergency Mode Active" when truthy. *)
Definition emergency_mode_active (s : DashboardState) : jsval :=
  opt_chain (intersectionStatus s) "emergency_mode_active".

Definition is_invoke (e : Effect) : bool :=
  match e with Invoke _ => true | _ => false end.

(** The calls of request functions made so far, oldest first. *)
Definition invocations (d : Dashboard) : list Effect :=
  filter (fun e => is_invoke e = true) (effects d).

(** Frames handled one after the other, in arrival order. *)
Definition process_frames (frames : list jsval) (d : Dashboard) : Dashboard :=
  foldl (fun d data => fst (onMessage data d)) d frames.

(** The kinds of frame the handler tells apart: no usable discriminant
    (the frame or its [type] is falsy), one of the three known values of
    [type], or any other value. *)
Inductive FrameKind : Type :=
| NoDiscriminant | Status | Detection | Alert | Unrecognized.

Definition discriminant (data : jsval) : jsval := opt_chain data "type".

Definition payload (data : jsval) : jsval := opt_chain data "data".

Definition kind_of (data : jsval) : FrameKind :=
  if negb (truthy data) || negb (truthy (discriminant data)) then NoDiscriminant
  else if strict_eq_str (discriminant data) "intersection_status" then Status
  else if strict_eq_str (discriminant data) "vehicle_detection" then Detection
  else if strict_eq_str (discriminant data) "emergency_alert" then Alert
  else Unrecognized.

Definition recognized (k : FrameKind) : bool :=
  match k with
  | Status | Detection | Alert => true
  | NoDiscriminant | Unrecognized => false
  end.

(** A frame, given as what [JSON.parse] made of it, that is not parseable,
    has no discriminant, or has one that is not recognized. *)
Definition dropped (parsed : option jsval) : bool :=
  match parsed with
  | None => true
  | Some data => negb (recognized (kind_of data))
  end.

(** The active flag an alert frame carries: [data.data?.is_active]. *)
Definition is_active (data : jsval) : jsval :=
  opt_chain (payload data) "is_active".

(** Frames as the backend sends them: a status frame with a status text, a
    status frame without one, an alert frame, a detection frame. *)
Definition status_frame (system_status : string) : jsval :=
  JObj [("type", JStr "intersection_status");
        ("data", JObj [("system_status", JStr system_status)])].

Definition bare_status_frame : jsval :=
  JObj [("type", JStr "intersection_status"); ("data", JObj [])].

Definition alert_frame (active : bool) : jsval :=
  JObj [("type", JStr "emergency_alert");
        ("data", JObj [("is_active", JBool active)])].

Definition detection_frame : jsval :=
  JObj [("type", JStr "vehicle_detection");
        ("data", JObj [("total_vehicles", JNum 7)])].

(** *** The dashboard's turns

    The socket handlers were created by the effect that ran at mount, so the
    render they closed over is the initial one. *)
Inductive Event : Type :=
| Opened
| Frame (data : jsval)
| Closed (code : Z)
| Errored
| StatusFetched (status : jsval)
| StatusFetchFailed
| Click
| Drop (files : list string)
| CallFulfilled (successMsg : string)
| CallRejected (errorMsg : string) (message : jsval)
| DropFulfilled (result : jsval)
| DropRejected (message : jsval).

Definition step (d : Dashboard) (ev : Event) : Dashboard :=
  match ev with
  | Opened => onOpen initialState d
  | Frame data => fst (onMessage data d)
  | Closed code => onClose code d
  | Errored => onError initialState d
  | StatusFetched status => fetchInitialStatus_fetched status d
  | StatusFetchFailed => fetchInitialStatus_failed d
  | Click => click_button d
  | Drop files => drop files d
  | CallFulfilled successMsg => callApi_fulfilled successMsg d
  | CallRejected errorMsg message => callApi_rejected errorMsg message d
  | DropFulfilled result => onDrop_fulfilled result d
  | DropRejected message => onDrop_rejected message d
  end.


(** Turns taken one after the other. *)
Definition run (d : Dashboard) (evs : list Event) : Dashboard :=
  foldl step d evs.

(** The turns that store into [intersectionStatus]. *)
Definition stores_intersection (ev : Event) : bool :=
  match ev with
  | Frame data =>
      match kind_of data with Status | Alert => true | _ => false end
  | Closed _ | Errored | StatusFetched _ | StatusFetchFailed => true
  | _ => false
  end.

End Dashboard.

(** ** [WebSocketService]: sending, and what a service has outstanding *)

Module Channel.

Section Channel.
Import WebSocketService.
Context {A : Type}.

(** [sendMessage(message)]: the state it leaves, and what it handed to
    [ws.send]: the socket and the message given to [JSON.stringify].
    Serialising a [jsval] and sending on an open socket do not throw. *)
Definition sendMessage (message : jsval) (st : @State A)
  : @State A * option (nat * jsval) :=
  match ws st with
  | Some s =>
      match readyState s st with
      | Some OPEN => (emit (ConsoleLog "[WS] Message sent:") st, Some (s, message))
      | _ =>
          (emit (ConsoleWarn "[WS] Cannot send message, WebSocket is not open.") st,
           None)
      end
  | None =>
      (emit (ConsoleWarn "[WS] Cannot send message, WebSocket is not open.") st,
       None)
  end.

Definition is_call_disconnect (ev : @Event A) : bool :=
  match ev with CallDisconnect => true | _ => false end.

Definition is_socket_open (ev : @Event A) : bool :=
  match ev with SocketOpen _ => true | _ => false end.

(** Exactly one thing is outstanding: one socket that is not closed and no
    timeout, or no such socket and the one timeout the service remembers. *)
Definition outstanding (st : @State A) : Prop :=
  (timers st = ∅ /\ live_sockets st = 1%nat) \/
  (exists t d, timers st = {[t := d]} /\ reconnectIntervalId st = Some t /\
               live_sockets st = 0%nat).

(** The socket the service holds, if any, is not closed. *)
Definition holds_live (st : @State A) : Prop :=
  forall s, ws st = Some s ->
    exists r, readyState s st = Some r /\ live r = true.

(** Every pending timeout was armed with one of the six delays. *)
Definition timers_in_range (st : @State A) : Prop :=
  forall t d, timers st !! t = Some d -> delay_value d.

End Channel.

End Channel.

(** ** The dashboard: analytics loading and the tab effect *)

Module Analytics.
Import Dashboard.

Definition setAnalyticsData (v : jsval) : Dashboard -> Dashboard :=
  update (fun s =>
    {| intersectionStatus := intersectionStatus s;
       detectionResults := detectionResults s;
       analyticsData := v;
       isSimulationRunning := isSimulationRunning s;
       isLoading := isLoading s; isConnecting := isConnecting s;
       activeTab := activeTab s |}).

(** [loadAnalytics] up to its [await].  It is made anew whenever [isLoading]
    or [analyticsData] changes, so it reads the current state. *)
Definition loadAnalytics (d : Dashboard) : Dashboard :=
  if isLoading (state d) || truthy (analyticsData (state d)) then d
  else
    let d := setIsLoading true d in
    let d := emit (Console "Loading analytics data...") d in
    emit (Invoke (getAnalyticsSummary "daily")) d.

Definition loadAnalytics_fulfilled (summaryData : jsval) (d : Dashboard)
  : Dashboard :=
  setIsLoading false (setAnalyticsData summaryData d).

(** [message] is the [message] of the error the promise was rejected
    with, a string as for [callApi]. *)
Definition loadAnalytics_rejected (message : jsval) (d : Dashboard) : Dashboard :=
  let d :=
    emit (Toast ToastError "Failed to load analytics:"
            [js_or message (JStr "Unknown error")]) d in
  let d := emit (Console "Analytics fetch error:") d in
  setIsLoading false (setAnalyticsData JNull d).

(** The body of the effect on [activeTab], [loadAnalytics] and
    [detectionResults]: the dashboard it leaves, and whether it armed the
    300 ms timeout that clears the detection results. *)
Definition tab_effect (d : Dashboard) : Dashboard * bool :=
  let d' :=
    match activeTab (state d) with
    | analytics_tab => loadAnalytics d
    | _ => d
    end in
  (d',
   match activeTab (state d) with
   | detection_tab => false
   | _ => truthy (detectionResults (state d))
   end).

(** The timeout armed by [tab_effect], when it fires. *)
Definition clear_detection (d : Dashboard) : Dashboard :=
  setDetectionResults JNull d.

Definition is_toast (e : Effect) : bool :=
  match e with Toast _ _ _ => true | _ => false end.

(** The notifications shown so far, oldest first. *)
Definition toasts (d : Dashboard) : list Effect :=
  filter (fun e => is_toast e = true) (effects d).

(** The text of the status indicator in the header. *)
Definition indicator (s : DashboardState) : string :=
  if isConnecting s then "Connecting"
  else match isSimulationRunning s with
       | Some true => "Live"
       | _ => "Offline"
       end.

End Analytics.

(** ** The dashboard's own [WebSocketService] and how it is wired *)

Module MockSocket.
Import Dashboard.

(** The class [WebSocketService] declared in TrafficDashboard.tsx.  Its
    callbacks act on the dashboard; [connectPending] tells whether the
    timeout armed by the constructor is still to fire. *)
Record Service : Type := {
  onOpenCallback : Dashboard -> Dashboard;
  onMessageCallback : jsval -> Dashboard -> Dashboard * Completion;
  onCloseCallback : Z -> Dashboard -> Dashboard;
  onErrorCallback : Dashboard -> Dashboard;
  connectPending : bool
}.

(** [new WebSocketService(url)]: callbacks that do nothing, and the 1000 ms
    timeout armed. *)
Definition create : Service :=
  {| onOpenCallback := fun d => d;
     onMessageCallback := fun _ d => (d, Normal);
     onCloseCallback := fun _ d => d;
     onErrorCallback := fun d => d;
     connectPending := true |}.

Definition onOpen (callback : Dashboard -> Dashboard) (m : Service) : Service :=
  {| onOpenCallback := callback;
     onMessageCallback := onMessageCallback m;
     onCloseCallback := onCloseCallback m;
     onErrorCallback := onErrorCallback m;
     connectPending := connectPending m |}.

Definition onMessage (callback : jsval -> Dashboard -> Dashboard * Completion)
    (m : Service) : Service :=
  {| onOpenCallback := onOpenCallback m;
     onMessageCallback := callback;
     onCloseCallback := onCloseCallback m;
     onErrorCallback := onErrorCallback m;
     connectPending := connectPending m |}.

Definition onClose (callback : Z -> Dashboard -> Dashboard) (m : Service)
  : Service :=
  {| onOpenCallback := onOpenCallback m;
     onMessageCallback := onMessageCallback m;
     onCloseCallback := callback;
     onErrorCallback := onErrorCallback m;
     connectPending := connectPending m |}.

Definition onError (callback : Dashboard -> Dashboard) (m : Service) : Service :=
  {| onOpenCallback := onOpenCallback m;
     onMessageCallback := onMessageCallback m;
     onCloseCallback := onCloseCallback m;
     onErrorCallback := callback;
     connectPending := connectPending m |}.

Definition set_connectPending (v : bool) (m : Service) : Service :=
  {| onOpenCallback := onOpenCallback m;
     onMessageCallback := onMessageCallback m;
     onCloseCallback := onCloseCallback m;
     onErrorCallback := onErrorCallback m;
     connectPending := v |}.


(** [disconnect()]: the timeout is cleared and a clean close event, code
    1000, is given to the close callback. *)
Definition disconnect (m : Service) (d : Dashboard) : Service * Dashboard :=
  (set_connectPending false m,
   onCloseCallback m 1000%Z (emit (Console "[Mock WS] Disconnect called.") d)).

(** [WebSocketService.simulateMessage(instance, data)]. *)
Definition simulateMessage (instance : option Service) (data : jsval)
    (d : Dashboard) : Dashboard * Completion :=
  match instance with
  | Some m =>
      onMessageCallback m data (emit (Console "[Mock WS] Simulating message:") d)
  | None => (d, Normal)
  end.

(** The component with its service: [wsServiceRef.current] and the
    dashboard. *)
Record App : Type := {
  wsServiceRef : option Service;
  dashboard : Dashboard
}.

(** The mount effect: a service is made and wired unless the ref holds one
    already. *)
Definition mount_effect (a : App) : App :=
  match wsServiceRef a with
  | Some _ => a
  | None =>
      let d :=
        emit (Console "[TrafficDashboard] Attempting WebSocket connection to:")
          (dashboard a) in
      let d := emit (Console "[Mock WS] Initializing connection to:") d in
      let service :=
        onError (Dashboard.onError initialState)
          (onClose Dashboard.onClose
             (onMessage Dashboard.onMessage
                (onOpen (Dashboard.onOpen initialState) create))) in
      {| wsServiceRef := Some service; dashboard := d |}
  end.



Section Simulated.

(** [add] is JavaScript's binary [+], and [now] what
    [new Date().toISOString()] returns. *)
Variable add : jsval -> jsval -> jsval.
Variable now : string.

(** The frames [handleStartSimulation] and [handleStopSimulation] make up
    once their call is fulfilled.  [seen] is the render the handler closed
    over: the one in which the button was clicked. *)
Definition started_frame (seen : DashboardState) : jsval :=
  JObj [("type", JStr "intersection_status");
        ("data",
         JObj (set_prop "last_updated" (JStr now)
                 (set_prop "total_vehicles"
                    (add (js_or (opt_chain (intersectionStatus seen) "total_vehicles")
                            (JNum 40))
                         (JNum 5))
                    (set_prop "system_status" (JStr "operational")
                       (own_enumerable (intersectionStatus seen))))))].

Definition stopped_frame (seen : DashboardState) : jsval :=
  JObj [("type", JStr "intersection_status");
        ("data",
         JObj (set_prop "last_updated" (JStr now)
                 (set_prop "system_status" (JStr "offline")
                    (own_enumerable (intersectionStatus seen)))))].

(** What follows the [await] in the two handlers when the call is
    fulfilled: [callApi] finishes, then the frame is simulated; a throw from
    there is caught and logged. *)
Definition simulate_after (successMsg failure : string) (frame : jsval)
    (a : App) : App :=
  let d := callApi_fulfilled successMsg (dashboard a) in
  let d :=
    match simulateMessage (wsServiceRef a) frame d with
    | (d', Normal) => d'
    | (d', Abrupt) => emit (Console failure) d'
    end in
  {| wsServiceRef := wsServiceRef a; dashboard := d |}.

Definition handleStartSimulation_fulfilled (seen : DashboardState) : App -> App :=
  simulate_after "Simulation start requested!"
    "Handling start simulation failure in component" (started_frame seen).

Definition handleStopSimulation_fulfilled (seen : DashboardState) : App -> App :=
  simulate_after "Simulation stop requested!"
    "Handling stop simulation failure in component" (stopped_frame seen).

(** And when the call is rejected. *)
Definition handleStartSimulation_rejected (message : jsval) (a : App) : App :=
  {| wsServiceRef := wsServiceRef a;
     dashboard :=
       emit (Console "Handling start simulation failure in component")
         (callApi_rejected "Failed to start simulation" message (dashboard a)) |}.

Definition handleStopSimulation_rejected (message : jsval) (a : App) : App :=
  {| wsServiceRef := wsServiceRef a;
     dashboard :=
       emit (Console "Handling stop simulation failure in component")
         (callApi_rejected "Failed to stop simulation" message (dashboard a)) |}.

End Simulated.

End MockSocket.

(** * Properties *)

(** ** [handleResponse] *)

Section HttpFacts.
Import Http.

Lemma js_or_truthy (a b : jsval) : truthy a = true -> js_or a b = a.
Proof. unfold js_or. intros ->. reflexivity. Qed.

Lemma js_or_falsy (a b : jsval) : truthy a = false -> js_or a b = b.
Proof. unfold js_or. intros ->. reflexivity. Qed.

(** A response whose status is not in 200-299 is always a failure. *)
Lemma handleResponse_not_ok (r : Response) :
  ok r = false -> exists m, handleResponse r = Rejected m.
Proof.
  intros Hok. unfold handleResponse. rewrite Hok. simpl. eauto.
Qed.

(** C9, as stated, at a 404 whose body is the JSON object [{}]: the body
    has no [detail], yet the message is not the status text but the fixed
    text with the status number. *)
Lemma handleResponse_message_not_status_text :
  let r := {| status := 404; statusText := "Not Found";
              json := Some (JObj []) |} in
  ok r = false /\
  opt_chain (JObj []) "detail" = JUndefined /\
  handleResponse r = Rejected (JStr "HTTP error! Status: 404") /\
  handleResponse r <> Rejected (JStr (statusText r)).
Proof.
  cbv zeta. repeat split; try reflexivity.
  vm_compute. discriminate.
Qed.

(** C9, amended.  A non-success status always fails; the message is the
    body's [detail] when the body is JSON and its [detail] is truthy, the
    text "HTTP error! Status: <status>" when the body is JSON without a
    truthy [detail], and when the body is not JSON the status text, or
    "Unknown fetch error" if that is empty.  202 and 204 give the synthetic
    payload whatever the body is.  Any other success status gives the parsed
    body, and fails exactly when the body is not JSON. *)
Theorem handleResponse_contract (r : Response) :
  (ok r = false ->
   handleResponse r =
   Rejected
     match json r with
     | Some body =>
         if truthy (opt_chain body "detail") then opt_chain body "detail"
         else JStr ("HTTP error! Status: " ++ status_string r)
     | None =>
         if String.eqb (statusText r) "" then JStr "Unknown fetch error"
         else JStr (statusText r)
     end) /\
  (ok r = true -> (status r = 202 \/ status r = 204)%Z ->
   handleResponse r =
   Resolved (JObj [("status", JNum (inject_Z (status r)));
                   ("message", JStr (statusText r))])) /\
  (ok r = true -> status r <> 202%Z -> status r <> 204%Z ->
   handleResponse r =
   match json r with
   | Some body => Resolved body
   | None => Rejected (JStr "Failed to parse API response JSON.")
   end).
Proof.
  unfold handleResponse. repeat split.
  - intros ->. simpl. f_equal.
    destruct (json r) as [body|]; [reflexivity|].
    unfold js_or at 2. simpl.
    destruct (String.eqb (statusText r) "") eqn:E; simpl.
    + reflexivity.
    + unfold opt_chain. simpl. unfold js_or. simpl. rewrite E. reflexivity.
  - intros -> [E | E]; rewrite E; reflexivity.
  - intros -> H1 H2. simpl.
    destruct (Z.eqb_spec (status r) 204); [contradiction|].
    destruct (Z.eqb_spec (status r) 202); [contradiction|].
    reflexivity.
Qed.

Lemma handleResponse_contract_witness :
  handleResponse {| status := 500; statusText := "Internal Server Error";
                    json := Some (JObj [("detail", JStr "boom")]) |}
  = Rejected (JStr "boom") /\
  handleResponse {| status := 204; statusText := "No Content"; json := None |}
  = Resolved (JObj [("status", JNum (inject_Z 204));
                    ("message", JStr "No Content")]) /\
  handleResponse {| status := 200; statusText := "OK"; json := None |}
  = Rejected (JStr "Failed to parse API response JSON.").
Proof.
  split; [|split].
  - apply (proj1 (handleResponse_contract
                    {| status := 500; statusText := "Internal Server Error";
                       json := Some (JObj [("detail", JStr "boom")]) |})).
    reflexivity.
  - apply (proj1 (proj2 (handleResponse_contract
                    {| status := 204; statusText := "No Content";
                       json := None |}))).
    + reflexivity.
    + right. reflexivity.
  - apply (proj2 (proj2 (handleResponse_contract
                    {| status := 200; statusText := "OK"; json := None |}))).
    + reflexivity.
    + discriminate.
    + discriminate.
Defined.

End HttpFacts.

(** ** [WebSocketService] *)

Section WebSocketServiceFacts.
Import WebSocketService.
Context {A : Type}.
Variable JSON_parse : string -> option jsval.
Variable WebSocket_accepts : string -> bool.

Local Abbreviation State := (@State A).
Local Abbreviation connect := (@connect A WebSocket_accepts).
Local Abbreviation retry := (@retry A WebSocket_accepts).
Local Abbreviation onmessage := (@onmessage A JSON_parse).
Local Abbreviation step := (@step A JSON_parse WebSocket_accepts).
Local Abbreviation run := (@run A JSON_parse WebSocket_accepts).
Local Abbreviation create := (@create A WebSocket_accepts).

Lemma live_count_insert (l : list ReadyState) (s : nat) (r r' : ReadyState) :
  l !! s = Some r ->
  (length (filter (fun x => live x = true) (<[s := r']> l)) + (if live r then 1 else 0) =
  length (filter (fun x => live x = true) l) + (if live r' then 1 else 0))%nat.
Proof.
  revert s. induction l as [|x l IH]; intros [|s] H; simplify_eq/=.
  - rewrite !filter_cons. destruct r, r'; simpl; lia.
  - rewrite !filter_cons. specialize (IH _ H). destruct (decide (live x = true)); simpl; lia.
Qed.

Lemma live_count_snoc (l : list ReadyState) (r : ReadyState) :
  length (filter (fun x => live x = true) (l ++ [r])%list) =
  (length (filter (fun x => live x = true) l) + (if live r then 1 else 0))%nat.
Proof.
  rewrite filter_app, length_app. f_equal. destruct r; reflexivity.
Qed.

Lemma clear_sockets (st : State) :
  sockets (clearReconnectInterval st) = sockets st.
Proof. unfold clearReconnectInterval. destruct (reconnectIntervalId st); reflexivity. Qed.

Lemma clear_timers (st : State) :
  exclusive st -> timers (clearReconnectInterval st) = ∅.
Proof.
  unfold clearReconnectInterval.
  intros [[H _] | (t & d & H & Hid & _)].
  - destruct (reconnectIntervalId st); simpl; rewrite H; [apply delete_empty | reflexivity].
  - rewrite Hid. simpl. rewrite H. apply delete_singleton_eq.
Qed.

Lemma clear_exclusive (st : State) :
  exclusive st ->
  timers (clearReconnectInterval st) = ∅ /\
  live_sockets (clearReconnectInterval st) = live_sockets st /\
  (live_sockets st <= 1)%nat.
Proof.
  intros H. split; [by apply clear_timers|]. split.
  - unfold live_sockets. by rewrite clear_sockets.
  - destruct H as [[_ H] | (t & d & _ & _ & H)]; lia.
Qed.

Lemma schedule_exclusive (st : State) :
  timers (clearReconnectInterval st) = ∅ -> live_sockets st = 0%nat ->
  exclusive (scheduleReconnect st).
Proof.
  intros Ht Hl. right. unfold scheduleReconnect. simpl.
  exists (nextTimer (clearReconnectInterval st)), (reconnectDelay (clearReconnectInterval st)).
  rewrite Ht. split; [apply insert_empty|]. split; [reflexivity|].
  unfold live_sockets in *. simpl. by rewrite clear_sockets.
Qed.

Lemma connect_exclusive (st : State) :
  timers st = ∅ -> live_sockets st = 0%nat -> exclusive (connect st).
Proof.
  intros Ht Hl. unfold WebSocketService.connect.
  destruct (connected st).
  - left. simpl. split; [done|]. unfold live_sockets in *. simpl. lia.
  - simpl. destruct (WebSocket_accepts (url st)).
    + left. simpl. split; [done|]. unfold live_sockets in *. simpl.
      rewrite live_count_snoc. simpl. lia.
    + apply schedule_exclusive.
      * unfold clearReconnectInterval. simpl.
        destruct (reconnectIntervalId st); simpl; rewrite Ht; [apply delete_empty|done].
      * exact Hl.
Qed.

Lemma create_exclusive (u : string) (a : A) : exclusive (create u a).
Proof. apply connect_exclusive; reflexivity. Qed.

Lemma closing_live_sockets (st : State) (s : nat) :
  sockets st !! s = Some OPEN ->
  live_sockets (set_sockets (<[s := CLOSING]> (sockets st)) st) = live_sockets st.
Proof.
  intros E. pose proof (live_count_insert _ _ _ CLOSING E) as Hc. simpl in Hc.
  unfold live_sockets. simpl. lia.
Qed.

Lemma closing_exclusive (st : State) (s : nat) :
  sockets st !! s = Some OPEN -> exclusive st ->
  exclusive (set_sockets (<[s := CLOSING]> (sockets st)) st).
Proof.
  intros E H. unfold exclusive. rewrite (closing_live_sockets st s E). exact H.
Qed.

Lemma step_exclusive (st : State) (ev : Event) :
  exclusive st -> exclusive (step st ev).
Proof.
  intros H. destruct ev as [s | s raw | s | s | s | t | h |]; simpl.
  - (* open *)
    unfold readyState. destruct (sockets st !! s) as [[]|] eqn:E; try done.
    unfold onopen.
    pose proof (live_count_insert _ _ _ OPEN E) as Hc. simpl in Hc.
    set (st1 := set_reconnectDelay _ _).
    assert (H1 : exclusive st1).
    { destruct H as [[Ht Hl] | (t & d & Ht & Hid & Hl)].
      - left. split; [exact Ht|]. unfold live_sockets in *. simpl. lia.
      - right. exists t, d. repeat split; try done. unfold live_sockets in *. simpl. lia. }
    destruct (clear_exclusive _ H1) as (Ht & Hl & Hle).
    left. split; [exact Ht|]. lia.
  - (* message *)
    unfold readyState. destruct (sockets st !! s) as [[]|]; try done.
    unfold WebSocketService.onmessage.
    destruct (JSON_parse raw); [destruct (messageHandler st)|]; try exact H.
    destruct (w j (app st)) as [a []]; exact H.
  - unfold readyState. destruct (sockets st !! s) as [r|]; try done.
    destruct (live r); exact H.
  - (* closing *)
    unfold readyState. destruct (sockets st !! s) as [[]|] eqn:E; try done.
    by apply closing_exclusive.
  - (* close *)
    unfold readyState. destruct (sockets st !! s) as [r|] eqn:E; try done.
    destruct (live r) eqn:Er; try done.
    pose proof (live_count_insert _ _ _ CLOSED E) as Hc. rewrite Er in Hc. simpl in Hc.
    unfold onclose.
    destruct H as [[Ht Hl] | (t & d & Ht & Hid & Hl)];
      unfold live_sockets in *; [|lia].
    apply schedule_exclusive.
    + unfold clearReconnectInterval. simpl.
      destruct (reconnectIntervalId st); simpl; rewrite Ht; [apply delete_empty|done].
    + unfold live_sockets. simpl. lia.
  - (* timer *)
    destruct (timers st !! t) as [d|] eqn:E; try done.
    destruct H as [[Ht Hl] | (t' & d' & Ht & Hid & Hl)].
    { rewrite Ht in E. by rewrite lookup_empty in E. }
    rewrite Ht in E. apply lookup_singleton_Some in E as [-> ->].
    unfold WebSocketService.retry. apply connect_exclusive.
    + simpl. rewrite Ht. apply delete_singleton_eq.
    + exact Hl.
  - exact H.
  - (* disconnect *)
    unfold disconnect.
    set (st1 := emit _ st).
    assert (H1 : exclusive st1) by exact H.
    destruct (clear_exclusive _ H1) as (Ht & Hl & Hle).
    simpl. destruct (ws (clearReconnectInterval st1)) as [s|] eqn:Ews.
    + left. unfold socket_close, readyState. simpl.
      destruct (sockets (clearReconnectInterval st1) !! s) as [r|] eqn:E; simpl.
      * pose proof (live_count_insert _ _ _ CLOSING E) as Hc.
        unfold live_sockets in *. 
        destruct r; simpl in *; (split; [exact Ht|]); simpl; lia.
      * split; [exact Ht|]. unfold live_sockets in *. simpl. lia.
    + left. split; [exact Ht|]. unfold live_sockets in *; simpl; lia.
Qed.


Lemma run_exclusive (st : State) (evs : list Event) :
  exclusive st -> exclusive (run st evs).
Proof.
  revert st. induction evs as [|ev evs IH]; intros st H; [exact H|].
  apply IH, step_exclusive, H.
Qed.

Lemma run_app (st : State) (evs evs' : list Event) :
  run st (evs ++ evs')%list = run (run st evs) evs'.
Proof. apply foldl_app. Qed.

(** *** Backoff *)

Lemma backoff_step (x : Q) :
  Qmin 30000 (Qmin 30000 x * 1.5) == Qmin 30000 (x * 1.5).
Proof.
  destruct (Q.min_spec 30000 x) as [[H1 H2] | [H1 H2]];
  destruct (Q.min_spec 30000 (Qmin 30000 x * 1.5)) as [[H3 H4] | [H3 H4]];
  destruct (Q.min_spec 30000 (x * 1.5)) as [[H5 H6] | [H5 H6]];
  rewrite H4, H6; rewrite H2 in *; lra.
Qed.

Lemma pow_succ (n : nat) :
  1.5 ^ Z.of_nat (S n) == 1.5 ^ Z.of_nat n * 1.5.
Proof.
  rewrite Nat2Z.inj_succ. unfold Z.succ. rewrite Qpower_plus by discriminate.
  reflexivity.
Qed.


Lemma fire_idle (st : State) :
  scheduled_delay st = None -> fire JSON_parse WebSocket_accepts st = st.
Proof.
  unfold scheduled_delay, fire. destruct (reconnectIntervalId st) as [t|]; [|done].
  simpl. intros ->. reflexivity.
Qed.

Lemma fail_holds (st : State) :
  holds_socket WebSocket_accepts st ->
  let st' := fail JSON_parse WebSocket_accepts st in
  scheduled_delay st' = Some (reconnectDelay st) /\
  reconnectDelay st' = reconnectDelay st /\
  maxReconnectDelay st' = maxReconnectDelay st /\
  url st' = url st /\
  ws st' = None.
Proof.
  intros (Hu & Hid & s & r & Hws & Hr & Hl). unfold fail. rewrite Hws. simpl.
  rewrite Hr, Hl. unfold onclose, scheduleReconnect, clearReconnectInterval, scheduled_delay.
  simpl. destruct (reconnectIntervalId st); simpl; rewrite lookup_insert_eq; eauto 10.
Qed.

Lemma cycle_holds (st : State) :
  holds_socket WebSocket_accepts st ->
  let st' := fire JSON_parse WebSocket_accepts (fail JSON_parse WebSocket_accepts st) in
  holds_socket WebSocket_accepts st' /\
  reconnectDelay st' = Qmin (maxReconnectDelay st) (reconnectDelay st * 1.5) /\
  maxReconnectDelay st' = maxReconnectDelay st.
Proof.
  intros H. pose proof (fail_holds st H) as (Hd & Hrd & Hm & Hu & Hws).
  destruct H as (Hacc & _).
  cbv zeta. set (st1 := fail _ _ st) in *.
  unfold fire. unfold scheduled_delay in Hd.
  destruct (reconnectIntervalId st1) as [t|] eqn:Ht; [|discriminate].
  simpl. rewrite Hd.
  unfold WebSocketService.retry, WebSocketService.connect, connected. simpl.
  rewrite Hws, Hu, Hacc. simpl. rewrite Hrd, Hm.
  split; [|split; reflexivity].
  split; [simpl; congruence|]. split.
  - unfold scheduled_delay. simpl. rewrite Ht. apply lookup_delete_eq.
  - exists (length (sockets st1)), CONNECTING. simpl. split; [reflexivity|].
    split; [|reflexivity]. unfold readyState. simpl.
    rewrite lookup_app_r by lia. by rewrite Nat.sub_diag.
Qed.

Lemma failures_delay (st : State) (n : nat) :
  holds_socket WebSocket_accepts st ->
  maxReconnectDelay st == 30000 -> reconnectDelay st == 5000 ->
  let st' := fire JSON_parse WebSocket_accepts (failures JSON_parse WebSocket_accepts n st) in
  holds_socket WebSocket_accepts st' /\ maxReconnectDelay st' == 30000 /\
  reconnectDelay st' == Qmin 30000 (5000 * 1.5 ^ Z.of_nat n).
Proof.
  intros H Hm Hd. induction n as [|n (IH1 & IH2 & IH3)]; cbv zeta.
  - simpl failures. rewrite fire_idle by apply H. split; [exact H|]. split; [exact Hm|].
    rewrite Hd. simpl. symmetry. apply Q.min_r. lra.
  - simpl failures. destruct (cycle_holds _ IH1) as (H1 & H2 & H3).
    cbv zeta in *. split; [exact H1|]. split; [by rewrite H3|].
    rewrite H2. rewrite IH2, IH3. rewrite backoff_step, pow_succ.
    apply Q.min_compat; [reflexivity|]. ring.
Qed.

Lemma failures_scheduled (st : State) (N : nat) :
  holds_socket WebSocket_accepts st ->
  maxReconnectDelay st == 30000 -> reconnectDelay st == 5000 ->
  (1 <= N)%nat ->
  exists d, scheduled_delay (failures JSON_parse WebSocket_accepts N st) = Some d /\
            d == Qmin 30000 (5000 * 1.5 ^ (Z.of_nat N - 1)).
Proof.
  intros H Hm Hd HN. destruct N as [|n]; [lia|].
  destruct (failures_delay st n H Hm Hd) as (H1 & H2 & H3). cbv zeta in *.
  simpl failures. destruct (fail_holds _ H1) as (E & _). cbv zeta in E.
  eexists. split; [exact E|].
  replace (Z.of_nat (S n) - 1)%Z with (Z.of_nat n) by lia. exact H3.
Qed.

Lemma create_holds (u : string) (a : A) :
  WebSocket_accepts u = true -> holds_socket WebSocket_accepts (create u a).
Proof.
  intros H. unfold WebSocketService.create, WebSocketService.connect. simpl. rewrite H.
  split; [exact H|]. split; [reflexivity|]. exists 0%nat, CONNECTING. done.
Qed.




(** *** Effects of the methods *)

Lemma attempts_emit (e : Effect) (st : State) :
  attempts (emit e st) = (attempts st + if is_attempt e then 1 else 0)%nat.
Proof.
  unfold attempts. simpl. rewrite filter_app, length_app. f_equal.
  destruct e; reflexivity.
Qed.

Lemma deliveries_emit (e : Effect) (st : State) :
  deliveries (emit e st) =
  (deliveries st ++ if is_delivery e then [e] else [])%list.
Proof.
  unfold deliveries. simpl. rewrite filter_app. f_equal. destruct e; reflexivity.
Qed.


Ltac silent :=
  unfold silent, deliveries, WebSocketService.retry,
    WebSocketService.connect, onopen, onclose, onerror, scheduleReconnect,
    clearReconnectInterval, socket_close, setTimeout, clearTimeout;
  simpl; repeat case_match; simpl;
  rewrite ?filter_app; simpl; rewrite ?app_nil_r; auto.

Lemma silent_clear (st : State) : silent st (clearReconnectInterval st).
Proof. silent. Qed.
Lemma silent_schedule (st : State) : silent st (scheduleReconnect st).
Proof. silent. Qed.
Lemma silent_connect (st : State) : silent st (connect st).
Proof. silent. Qed.
Lemma silent_retry (st : State) : silent st (retry st).
Proof. silent. Qed.
Lemma silent_onopen (st : State) : silent st (onopen st).
Proof. silent. Qed.
Lemma silent_onclose (st : State) : silent st (onclose st).
Proof. silent. Qed.
Lemma silent_socket_close (s : nat) (st : State) : silent st (socket_close s st).
Proof. silent. Qed.

Lemma silent_trans (st1 st2 st3 : State) :
  silent st1 st2 -> silent st2 st3 -> silent st1 st3.
Proof. unfold silent. intros (-> & -> & ->) (-> & -> & ->). done. Qed.

Ltac same_attempts :=
  unfold attempts, onopen, onclose, onerror, disconnect,
    scheduleReconnect, clearReconnectInterval, socket_close, setTimeout,
    clearTimeout, readyState;
  simpl; repeat case_match; simpl;
  rewrite ?filter_app, ?length_app; simpl; lia.

Lemma attempts_clear (st : State) :
  attempts (clearReconnectInterval st) = attempts st.
Proof. same_attempts. Qed.

Lemma attempts_disconnect (st : State) :
  attempts (disconnect st) = attempts st.
Proof. same_attempts. Qed.

(** *** After a manual disconnect *)

Lemma no_live_socket (st : State) (s : nat) (r : ReadyState) :
  live_sockets st = 0%nat -> readyState s st = Some r -> live r = false.
Proof.
  unfold live_sockets, readyState. intros H E.
  apply length_zero_iff_nil in H.
  destruct (live r) eqn:Hr; [|reflexivity].
  assert (r ∈ filter (fun x => live x = true) (sockets st)) as Hin.
  { apply list_elem_of_filter. split; [exact Hr|]. eapply list_elem_of_lookup_2, E. }
  rewrite H in Hin. by apply not_elem_of_nil in Hin.
Qed.

Lemma disconnect_quiescent (st : State) :
  exclusive st -> live_sockets st = 0%nat -> quiescent (disconnect st).
Proof.
  intros H Hl. unfold disconnect.
  set (st1 := emit _ st).
  assert (H1 : exclusive st1) by exact H.
  destruct (clear_exclusive _ H1) as (Ht & Hl1 & _).
  assert (Hl2 : live_sockets (clearReconnectInterval st1) = 0%nat) by (rewrite Hl1; exact Hl).
  simpl. destruct (ws (clearReconnectInterval st1)) as [s|]; [|done].
  unfold socket_close. simpl.
  destruct (readyState s (set_messageHandler None (clearReconnectInterval st1)))
    as [r|] eqn:E; [|done].
  apply (no_live_socket _ _ _ Hl2) in E as E'.
  destruct r; try discriminate. done.
Qed.

Lemma step_quiescent (st : State) (ev : Event) :
  quiescent st ->
  quiescent (step st ev) /\ attempts (step st ev) = attempts st.
Proof.
  intros [Ht Hl]. destruct ev as [s | s raw | s | s | s | t | h |]; simpl.
  - destruct (readyState s st) as [r|] eqn:E; [|done].
    apply (no_live_socket _ _ _ Hl) in E. by destruct r.
  - destruct (readyState s st) as [r|] eqn:E; [|done].
    apply (no_live_socket _ _ _ Hl) in E. by destruct r.
  - destruct (readyState s st) as [r|] eqn:E; [|done].
    apply (no_live_socket _ _ _ Hl) in E. by rewrite E.
  - destruct (readyState s st) as [r|] eqn:E; [|done].
    apply (no_live_socket _ _ _ Hl) in E. by destruct r.
  - destruct (readyState s st) as [r|] eqn:E; [|done].
    apply (no_live_socket _ _ _ Hl) in E. by rewrite E.
  - rewrite Ht, lookup_empty. done.
  - done.
  - split; [|apply attempts_disconnect].
    apply disconnect_quiescent; [left; split; [exact Ht|lia] | exact Hl].
Qed.

Lemma run_quiescent (st : State) (evs : list Event) :
  quiescent st -> attempts (run st evs) = attempts st.
Proof.
  revert st. induction evs as [|ev evs IH]; intros st H; [reflexivity|].
  destruct (step_quiescent st ev H) as [H1 H2].
  change (attempts (run (step st ev) evs) = attempts st).
  rewrite IH by exact H1. exact H2.
Qed.

(** Where no socket is live (a reconnect is scheduled, or nothing is),
    [disconnect] is final: the pending timeout is cancelled, and whatever
    happens next, no connect attempt is made. *)
Lemma disconnect_without_socket_is_final (st : State) (evs : list Event) :
  exclusive st -> live_sockets st = 0%nat ->
  timers (disconnect st) = ∅ /\
  attempts (run (disconnect st) evs) = attempts st.
Proof.
  intros H Hl. pose proof (disconnect_quiescent st H Hl) as Hq.
  split; [apply Hq|].
  rewrite run_quiescent by exact Hq. apply attempts_disconnect.
Qed.

(** C1, at a service whose socket is open: no connect attempt may follow
    [disconnect].  Here one does: the socket that [disconnect] closed
    reports [close], its [onclose] handler schedules a reconnect as for any
    other close, the timeout fires and a second socket is created. *)
Theorem disconnect_while_open_reconnects (u : string) (a : A) :
  let st := @WebSocketService.run A JSON_parse (fun _ => true)
              (@WebSocketService.create A (fun _ => true) u a)
              [SocketOpen 0; CallDisconnect] in
  ws st = None /\ timers st = ∅ /\ attempts st = 1%nat /\
  readyState 0 st = Some CLOSING /\
  let st' := @WebSocketService.run A JSON_parse (fun _ => true) st [SocketClose 0] in
  scheduled_delay st' = Some 5000%Q /\
  let st'' := @WebSocketService.run A JSON_parse (fun _ => true) st' [TimerFires 1] in
  attempts st'' = 2%nat /\ sockets st'' = [CLOSED; CONNECTING] /\
  ws st'' = Some 1%nat.
Proof.
  cbv zeta. repeat split.
Qed.

(** *** The handler slot *)

Lemma step_unheard (st : State) (ev : Event) :
  messageHandler st = None -> is_call_onMessage ev = false ->
  silent st (step st ev).
Proof.
  intros Hh Hev. destruct ev as [s | s raw | s | s | s | t | h |]; simpl;
    try discriminate.
  - destruct (readyState s st) as [[]|]; try done.
    apply (silent_trans _ (set_sockets (<[s:=OPEN]> (sockets st)) st)); [done|].
    apply silent_onopen.
  - destruct (readyState s st) as [[]|]; try done.
    unfold WebSocketService.onmessage. rewrite Hh.
    destruct (JSON_parse raw); silent.
  - destruct (readyState s st) as [r|]; [|done]. destruct (live r); [|done]. silent.
  - by destruct (readyState s st) as [[]|].
  - destruct (readyState s st) as [r|]; [|done]. destruct (live r); [|done].
    apply (silent_trans _ (set_sockets (<[s:=CLOSED]> (sockets st)) st)); [done|].
    apply silent_onclose.
  - destruct (timers st !! t); [|done].
    apply (silent_trans _ (clearTimeout t st)); [done|]. apply silent_retry.
  - unfold silent, disconnect, deliveries, clearReconnectInterval, socket_close.
    simpl. rewrite Hh.
    repeat case_match; simpl; rewrite ?filter_app; simpl; rewrite ?app_nil_r; auto.
Qed.

Lemma run_unheard (st : State) (evs : list Event) :
  messageHandler st = None ->
  forallb (fun ev => negb (is_call_onMessage ev)) evs = true ->
  silent st (run st evs).
Proof.
  revert st. induction evs as [|ev evs IH]; intros st Hh Hevs; [done|].
  simpl in Hevs. apply andb_true_iff in Hevs as [Hev Hevs].
  apply negb_true_iff in Hev.
  pose proof (step_unheard st ev Hh Hev) as Hs.
  change (silent st (run (step st ev) evs)).
  eapply silent_trans; [exact Hs|]. apply IH; [|exact Hevs].
  destruct Hs as (-> & _). exact Hh.
Qed.

Lemma disconnect_clears_handler (st : State) :
  messageHandler (disconnect st) = None /\ app (disconnect st) = app st /\
  deliveries (disconnect st) = deliveries st.
Proof.
  unfold disconnect, deliveries, clearReconnectInterval, socket_close. simpl.
  repeat case_match; simpl; rewrite ?filter_app; simpl; rewrite ?app_nil_r; auto.
Qed.

(** C10.  The service has one handler slot: [onMessage] overwrites it; a
    [message] event is handed to the handler in the slot and to no other, or
    to none; and after [disconnect], as long as no handler is registered
    again, nothing is delivered and the application state stays as it
    was. *)
Theorem single_handler_slot :
  (forall (st : State) (h1 h2 : WebSocketMessageHandler),
     messageHandler (onMessage h2 (onMessage h1 st)) = Some h2) /\
  (forall (st : State) (s : nat) (raw : string),
     deliveries (step st (SocketMessage s raw)) = deliveries st \/
     exists h data,
       messageHandler st = Some h /\ JSON_parse raw = Some data /\
       deliveries (step st (SocketMessage s raw)) =
       (deliveries st ++ [Delivered h data])%list) /\
  (forall (st : State) (evs : list Event),
     forallb (fun ev => negb (is_call_onMessage ev)) evs = true ->
     deliveries (run (disconnect st) evs) = deliveries st /\
     app (run (disconnect st) evs) = app st).
Proof.
  split; [reflexivity|]. split.
  - intros st s raw. simpl.
    destruct (readyState s st) as [[]|]; auto.
    unfold WebSocketService.onmessage.
    destruct (JSON_parse raw) as [data|] eqn:Ep.
    + destruct (messageHandler st) as [h|] eqn:Eh.
      * right. exists h, data. split; [reflexivity|]. split; [reflexivity|].
        destruct (h data (app st)) as [a' []]; unfold deliveries; simpl;
          rewrite ?filter_app; simpl; by rewrite ?app_nil_r.
      * left. unfold deliveries. simpl. rewrite filter_app. simpl. apply app_nil_r.
    + left. unfold deliveries. simpl. rewrite filter_app. simpl. apply app_nil_r.
  - intros st evs Hevs.
    destruct (disconnect_clears_handler st) as (Hh & Ha & Hd).
    destruct (run_unheard (disconnect st) evs Hh Hevs) as (_ & Ha' & Hd').
    split; congruence.
Qed.

(** *** One channel at a time *)

(** C5, amended.  [connect] on a service whose socket is open does nothing
    but log: no socket is created.  (On one whose socket is still
    connecting it does create a second socket.)  The class calls [connect]
    only from its constructor and from the retry timeout, and in every state
    the service can reach at most one socket is not closed; whenever a
    timeout is pending, so that a retry could run, none is. *)
Theorem connect_when_open_and_single_channel :
  (forall st : State,
     connected st = true ->
     connect st = emit (ConsoleLog "[WS] Already connected.") st /\
     sockets (connect st) = sockets st /\ ws (connect st) = ws st /\
     attempts (connect st) = attempts st) /\
  (forall (u : string) (a : A) (evs : list Event),
     (live_sockets (run (create u a) evs) <= 1)%nat) /\
  (forall (u : string) (a : A) (evs : list Event) (t : nat),
     is_Some (timers (run (create u a) evs) !! t) ->
     live_sockets (run (create u a) evs) = 0%nat).
Proof.
  split; [|split].
  - intros st H. unfold WebSocketService.connect. rewrite H.
    repeat split. rewrite attempts_emit. simpl. lia.
  - intros u a evs.
    destruct (run_exclusive _ evs (create_exclusive u a))
      as [[_ H] | (t & d & _ & _ & H)]; lia.
  - intros u a evs t [d Hd].
    destruct (run_exclusive _ evs (create_exclusive u a))
      as [[Ht _] | (t' & d' & _ & _ & H)]; [|exact H].
    rewrite Ht, lookup_empty in Hd. discriminate.
Qed.

(** *** The backoff sequence *)

Lemma step_delay (st : State) (ev : Event) :
  maxReconnectDelay (step st ev) = maxReconnectDelay st /\
  (reconnectDelay (step st ev) = reconnectDelay st \/
   reconnectDelay (step st ev) = 5000%Q \/
   reconnectDelay (step st ev) =
   Qmin (maxReconnectDelay st) (reconnectDelay st * 1.5)).
Proof.
  destruct ev; simpl;
    unfold readyState, onopen, WebSocketService.onmessage, onerror, onclose,
      WebSocketService.retry, WebSocketService.connect, disconnect,
      scheduleReconnect, clearReconnectInterval, socket_close, readyState;
    simpl; repeat case_match; simpl; auto.
Qed.

Lemma next_delay_value (d : Q) :
  delay_value d -> delay_value (Qmin 30000 (d * 1.5)).
Proof.
  unfold delay_value.
  destruct (Q.min_spec 30000 (d * 1.5)) as [[H1 H2] | [H1 H2]]; rewrite H2;
    intros [H | [H | [H | [H | [H | H]]]]]; rewrite H in *; lra.
Qed.

(** Whatever happens to a service, its delay is one of six values. *)
Lemma reachable_delay (u : string) (a : A) (evs : list Event) :
  maxReconnectDelay (run (create u a) evs) = 30000%Q /\
  delay_value (reconnectDelay (run (create u a) evs)).
Proof.
  induction evs as [|ev evs IH] using rev_ind.
  - unfold WebSocketService.create, WebSocketService.connect. simpl.
    destruct (WebSocket_accepts u); simpl; split; try reflexivity;
      left; reflexivity.
  - rewrite run_app. destruct IH as [Hm Hd].
    change (maxReconnectDelay (step (run (create u a) evs) ev) = 30000%Q /\
            delay_value (reconnectDelay (step (run (create u a) evs) ev))).
    destruct (step_delay (run (create u a) evs) ev)
      as [H1 [H2 | [H2 | H2]]];
      rewrite H1, H2; split; try exact Hm; try exact Hd.
    + left. reflexivity.
    + rewrite Hm. by apply next_delay_value.
Qed.


End WebSocketServiceFacts.

Import WebSocketService.

Lemma single_handler_slot_witness :
  let h : @WebSocketMessageHandler nat := fun _ n => (S n, Normal) in
  let st := @run nat (fun _ => Some JNull) (fun _ => true)
              (@create nat (fun _ => true) "ws://localhost:8000/ws/traffic-updates" 0%nat)
              [CallOnMessage h; SocketOpen 0; SocketMessage 0 "null"] in
  let evs := [SocketClose 0; TimerFires 1; SocketOpen 1; SocketMessage 1 "null"] in
  app st = 1%nat /\
  deliveries (@run nat (fun _ => Some JNull) (fun _ => true) (disconnect st) evs)
  = deliveries st /\
  app (@run nat (fun _ => Some JNull) (fun _ => true) (disconnect st) evs) = app st.
Proof.
  cbv zeta. split; [reflexivity|].
  apply (proj2 (proj2 (@single_handler_slot nat (fun _ => Some JNull) (fun _ => true)))).
  reflexivity.
Defined.

(** C5, as stated, on a new service, whose socket is still connecting:
    [connect] is not a no-op there, it creates a second socket next to the
    first, and both are live. *)
Lemma connect_while_connecting_opens_second_socket :
  let st := @create unit (fun _ => true) "ws://localhost:8000/ws/traffic-updates" tt in
  ws st = Some 0%nat /\ readyState 0 st = Some CONNECTING /\
  sockets (@connect unit (fun _ => true) st) = [CONNECTING; CONNECTING] /\
  attempts (@connect unit (fun _ => true) st) = S (attempts st) /\
  live_sockets (@connect unit (fun _ => true) st) = 2%nat.
Proof. cbv zeta. repeat split. Qed.

Lemma connect_when_open_and_single_channel_witness :
  let st := @run unit (fun _ => None) (fun _ => true)
              (@create unit (fun _ => true) "ws://localhost:8000/ws/traffic-updates" tt)
              [SocketOpen 0] in
  connected st = true /\
  sockets (@connect unit (fun _ => true) st) = sockets st /\
  attempts (@connect unit (fun _ => true) st) = attempts st.
Proof.
  cbv zeta. split; [reflexivity|].
  destruct (proj1 (@connect_when_open_and_single_channel unit (fun _ => None) (fun _ => true))
              (@run unit (fun _ => None) (fun _ => true)
                 (@create unit (fun _ => true) "ws://localhost:8000/ws/traffic-updates" tt)
                 [SocketOpen 0]) eq_refl) as (_ & H1 & _ & H2).
  split; [exact H1 | exact H2].
Defined.



(** The delays armed by the first seven failures in a row, in ms. *)
Example backoff_delays :
  map (fun N =>
         Qred <$>
         scheduled_delay
           (@failures unit (fun _ => None) (fun _ => true) N
              (@create unit (fun _ => true) "ws://localhost:8000/ws/traffic-updates" tt)))
      [1; 2; 3; 4; 5; 6; 7]%nat
  = [Some 5000; Some 7500; Some 11250; Some 16875; Some (50625 # 2);
     Some 30000; Some 30000]%Q.
Proof. vm_compute. reflexivity. Qed.

(** ** The dashboard *)

Section DashboardFacts.
Import Dashboard.

Lemma truthy_not_nullish (v : jsval) : truthy v = true -> nullish v = false.
Proof. destruct v; simpl; congruence. Qed.

Lemma get_truthy (v : jsval) (k : string) :
  truthy v = true -> get v k = Some (opt_chain v k).
Proof.
  intros H. unfold get, opt_chain. by rewrite (truthy_not_nullish v H).
Qed.

Lemma lookup_set_prop (k : string) (v : jsval) (ps : list (string * jsval)) :
  lookup_prop k (set_prop k v ps) = v.
Proof.
  induction ps as [|[k' v'] ps IH]; simpl.
  - by rewrite String.eqb_refl.
  - destruct (String.eqb k' k) eqn:E; simpl; rewrite E; [reflexivity | exact IH].
Qed.

Lemma prefix_toLowerCase (p s : string) :
  String.prefix p s = true ->
  String.prefix (toLowerCase p) (toLowerCase s) = true.
Proof.
  revert s. induction p as [|a p IH]; intros [|b s]; simpl; try done.
  destruct (ascii_dec a b) as [->|]; [|done].
  intros H. destruct (ascii_dec (lower_ascii b) (lower_ascii b)); [|done]. by apply IH.
Qed.

Lemma includes_toLowerCase (s needle : string) :
  includes s needle = true ->
  includes (toLowerCase s) (toLowerCase needle) = true.
Proof.
  induction s as [|c s IH]; simpl.
  - rewrite orb_false_r. intros H. apply (prefix_toLowerCase _ ""%string) in H.
    simpl in H. by rewrite H.
  - intros [H | H]%orb_true_iff.
    + apply (prefix_toLowerCase _ (String c s)) in H. simpl in H. by rewrite H.
    + rewrite (IH H). apply orb_true_r.
Qed.

(** What the handler does, by the kind of the frame. *)
Lemma onMessage_by_kind (data : jsval) (d : Dashboard) :
  onMessage data d =
  (match kind_of data with
   | NoDiscriminant =>
       emit (Console "[TrafficDashboard] Received invalid WebSocket message structure:") d
   | Status =>
       let d1 := setIntersectionStatus (payload data) d in
       match isRunning (payload data) with
       | Some (JBool b) => setIsSimulationRunning b d1
       | Some _ => d1
       | None =>
           emit (Console "[TrafficDashboard] Error processing WebSocket message:") d1
       end
   | Detection => setDetectionResults (payload data) d
   | Alert =>
       let d1 :=
         updateIntersectionStatus
           (fun prev =>
              JObj (set_prop "emergency_mode_active"
                      (js_coalesce (is_active data) (JBool false))
                      (own_enumerable (js_coalesce prev (JObj []))))) d in
       if truthy (is_active data) then
         if stringifies (opt_chain (payload data) "emergency_type") &&
            stringifies (opt_chain (payload data) "detected_lane")
         then
           emit (Toast ToastError "Emergency: in lane!"
                   [opt_chain (payload data) "emergency_type";
                    opt_chain (payload data) "detected_lane"]) d1
         else
           emit (Console "[TrafficDashboard] Error processing WebSocket message:") d1
       else emit (Toast ToastPlain "Emergency situation resolved." []) d1
   | Unrecognized =>
       if stringifies (discriminant data) then
         emit (Console "[TrafficDashboard] Received unknown WebSocket message type:") d
       else
         emit (Console "[TrafficDashboard] Error processing WebSocket message:") d
   end, Normal).
Proof.
  unfold onMessage, kind_of, discriminant.
  destruct (truthy data) eqn:Hd; simpl; [|reflexivity].
  rewrite (get_truthy _ "type" Hd).
  destruct (truthy (opt_chain data "type")) eqn:Ht; simpl; [|reflexivity].
  unfold process. rewrite (get_truthy _ "type" Hd), (get_truthy _ "data" Hd).
  fold (payload data).
  destruct (strict_eq_str (opt_chain data "type") "intersection_status").
  { destruct (isRunning (payload data)) as [[]|]; reflexivity. }
  destruct (strict_eq_str (opt_chain data "type") "vehicle_detection"); [reflexivity|].
  destruct (strict_eq_str (opt_chain data "type") "emergency_alert");
    [|by destruct (stringifies (opt_chain data "type"))].
  fold (is_active data). cbv zeta.
  destruct (truthy (is_active data)) eqn:Ha; [|reflexivity].
  assert (Hp : nullish (payload data) = false).
  { destruct (nullish (payload data)) eqn:E; [|reflexivity].
    unfold is_active, opt_chain in Ha. unfold opt_chain in E. rewrite E in Ha. discriminate. }
  unfold get. rewrite Hp. unfold opt_chain at 1 2 3 4. rewrite Hp.
  by destruct (stringifies _ && stringifies _).
Qed.

Lemma onMessage_normal (data : jsval) (d : Dashboard) :
  snd (onMessage data d) = Normal.
Proof. by rewrite onMessage_by_kind. Qed.


Lemma onMessage_state_ext (data : jsval) (d1 d2 : Dashboard) :
  state d1 = state d2 ->
  state (fst (onMessage data d1)) = state (fst (onMessage data d2)).
Proof.
  intros H. rewrite !onMessage_by_kind. simpl.
  destruct (kind_of data); simpl; try exact H.
  - destruct (isRunning (payload data)) as [[]|]; simpl; by rewrite H.
  - by rewrite H.
  - destruct (truthy (is_active data));
      [destruct (stringifies _ && stringifies _)|]; simpl; by rewrite H.
  - destruct (stringifies (discriminant data)); exact H.
Qed.

Lemma process_frames_state_ext (frames : list jsval) (d1 d2 : Dashboard) :
  state d1 = state d2 ->
  state (process_frames frames d1) = state (process_frames frames d2).
Proof.
  revert d1 d2. induction frames as [|data frames IH]; intros d1 d2 H; [exact H|].
  apply IH, onMessage_state_ext, H.
Qed.

Lemma process_frames_snoc (frames : list jsval) (data : jsval) (d : Dashboard) :
  process_frames (frames ++ [data])%list d =
  fst (onMessage data (process_frames frames d)).
Proof. unfold process_frames. by rewrite foldl_app. Qed.

Lemma onMessage_dropped (data : jsval) (d : Dashboard) :
  dropped (Some data) = true -> state (fst (onMessage data d)) = state d.
Proof.
  rewrite onMessage_by_kind. simpl.
  destruct (kind_of data); try done.
  by destruct (stringifies (discriminant data)).
Qed.

(** *** Status frames *)

Lemma status_frame_snapshot (data : jsval) (d : Dashboard) :
  kind_of data = Status ->
  intersectionStatus (state (fst (onMessage data d))) = payload data.
Proof.
  intros Hk. rewrite onMessage_by_kind, Hk. simpl.
  by destruct (isRunning (payload data)) as [[]|].
Qed.

(** C8.  A frame of kind [intersection_status] stores its payload as the
    intersection snapshot, whatever was there.  If the payload's
    [system_status] is a string, the running flag becomes whether its lower
    case form contains "operational", so a status that contains the marker
    gives [true]; if [system_status] is absent (or is no string), the running
    flag stays as it was.  Nothing else changes. *)
Theorem status_frame_effect (data : jsval) (d : Dashboard) :
  kind_of data = Status ->
  let s' := state (fst (onMessage data d)) in
  intersectionStatus s' = payload data /\
  isSimulationRunning s' =
    match opt_chain (payload data) "system_status" with
    | JStr text => Some (includes (toLowerCase text) "operational")
    | _ => isSimulationRunning (state d)
    end /\
  (forall text,
     opt_chain (payload data) "system_status" = JStr text ->
     includes text "operational" = true ->
     isSimulationRunning s' = Some true) /\
  (nullish (opt_chain (payload data) "system_status") = true ->
   isSimulationRunning s' = isSimulationRunning (state d)) /\
  detectionResults s' = detectionResults (state d) /\
  analyticsData s' = analyticsData (state d) /\
  isLoading s' = isLoading (state d) /\
  isConnecting s' = isConnecting (state d) /\
  activeTab s' = activeTab (state d).
Proof.
  intros Hk. cbv zeta. rewrite onMessage_by_kind, Hk. simpl.
  unfold isRunning.
  destruct (opt_chain (payload data) "system_status") as [| | b | n | text | l | ps] eqn:E;
    simpl; repeat split; try discriminate.
  intros text' [= <-] H. f_equal.
  apply (includes_toLowerCase text "operational"), H.
Qed.

Lemma status_frame_effect_witness :
  kind_of (status_frame "operational") = Status /\
  isSimulationRunning (state (fst (onMessage (status_frame "operational") mount)))
  = Some true.
Proof.
  split; [reflexivity|].
  eapply (proj1 (proj2 (proj2
            (status_frame_effect (status_frame "operational") mount eq_refl)))).
  - reflexivity.
  - reflexivity.
Defined.

(** The round trip of start and stop, and a status frame without a status
    text in between. *)
Example start_stop_round_trip :
  isSimulationRunning (state mount) = None /\
  isSimulationRunning
    (state (process_frames [status_frame "operational"] mount)) = Some true /\
  isSimulationRunning
    (state (process_frames [status_frame "operational"; bare_status_frame] mount))
  = Some true /\
  isSimulationRunning
    (state (process_frames
              [status_frame "operational"; bare_status_frame;
               status_frame "offline"] mount))
  = Some false.
Proof. repeat split. Qed.

(** *** Alert frames *)

Lemma alert_frame_state (data : jsval) (d : Dashboard) :
  kind_of data = Alert ->
  state (fst (onMessage data d)) =
  state (updateIntersectionStatus
           (fun prev =>
              JObj (set_prop "emergency_mode_active"
                      (js_coalesce (is_active data) (JBool false))
                      (own_enumerable (js_coalesce prev (JObj []))))) d).
Proof.
  intros Hk. rewrite onMessage_by_kind, Hk. cbv zeta.
  destruct (truthy (is_active data));
    [destruct (stringifies _ && stringifies _)|]; reflexivity.
Qed.

Lemma alert_frame_flag (data : jsval) (d : Dashboard) :
  kind_of data = Alert ->
  emergency_mode_active (state (fst (onMessage data d))) =
  js_coalesce (is_active data) (JBool false).
Proof.
  intros Hk. unfold emergency_mode_active. rewrite (alert_frame_state data d Hk).
  unfold opt_chain at 1. simpl. apply lookup_set_prop.
Qed.

(** C7.  After a non-empty sequence of [emergency_alert] frames the
    emergency flag is the [is_active] of the last frame, [false] standing in
    for one that carries none; so a frame that carries a boolean leaves
    exactly that boolean. *)
Theorem alert_frames_last_wins (frames : list jsval) (d : Dashboard) :
  frames <> [] -> Forall (fun data => kind_of data = Alert) frames ->
  exists data,
    last frames = Some data /\
    emergency_mode_active (state (process_frames frames d)) =
    js_coalesce (is_active data) (JBool false) /\
    (forall b, is_active data = JBool b ->
       emergency_mode_active (state (process_frames frames d)) = JBool b).
Proof.
  intros Hne Hall.
  destruct (list.last frames) as [data|] eqn:El;
    [|by apply last_None in El].
  apply last_Some in El as [frames' ->].
  exists data. split; [reflexivity|].
  apply Forall_app in Hall as [_ Hd]. rewrite Forall_singleton in Hd.
  rewrite process_frames_snoc, (alert_frame_flag _ _ Hd).
  split; [reflexivity|]. by intros b ->.
Qed.

Lemma alert_frames_last_wins_witness :
  emergency_mode_active
    (state (process_frames [alert_frame true; alert_frame false; alert_frame true]
              mount))
  = JBool true.
Proof.
  destruct (alert_frames_last_wins
              [alert_frame true; alert_frame false; alert_frame true] mount)
    as (data & El & _ & H).
  - discriminate.
  - repeat constructor.
  - injection El as <-. apply H. reflexivity.
Defined.

(** *** Who writes the emergency flag *)

(** C4, as stated: a status frame that carries no flag, arriving while the
    flag is set, clears it. *)
Lemma status_frame_changes_emergency_flag :
  let d := setIntersectionStatus (JObj [("emergency_mode_active", JBool true)]) mount in
  let data := status_frame "operational" in
  kind_of data = Status /\
  emergency_mode_active (state d) = JBool true /\
  emergency_mode_active (state (fst (onMessage data d))) = JUndefined /\
  emergency_mode_active (state (fst (onMessage data d))) <> emergency_mode_active (state d).
Proof. cbv zeta. repeat split. discriminate. Qed.

(** C4, amended.  The emergency flag is the [emergency_mode_active] of the
    stored intersection snapshot.  A turn that does not store into the
    snapshot leaves it alone: that is every turn but an alert frame, a
    status frame, the close and error handlers and the end of the initial
    status fetch; in particular detection frames and dropped frames.  An
    alert frame sets it to the frame's [is_active] ([false] if absent), a
    status frame to whatever its payload carries under that name, and the
    close and error handlers clear it. *)
Theorem emergency_flag_writers :
  (forall (d : Dashboard) (ev : Event),
     stores_intersection ev = false ->
     intersectionStatus (state (step d ev)) = intersectionStatus (state d) /\
     emergency_mode_active (state (step d ev)) = emergency_mode_active (state d)) /\
  (forall (d : Dashboard) (data : jsval),
     kind_of data = Alert ->
     emergency_mode_active (state (step d (Frame data))) =
     js_coalesce (is_active data) (JBool false)) /\
  (forall (d : Dashboard) (data : jsval),
     kind_of data = Status ->
     emergency_mode_active (state (step d (Frame data))) =
     opt_chain (payload data) "emergency_mode_active") /\
  (forall (d : Dashboard) (code : Z),
     emergency_mode_active (state (step d (Closed code))) = JUndefined) /\
  (forall d : Dashboard,
     emergency_mode_active (state (step d Errored)) = JUndefined).
Proof.
  split; [|split; [|split; [|split]]].
  - intros d ev Hev.
    assert (intersectionStatus (state (step d ev)) = intersectionStatus (state d)) as H.
    { destruct ev; simpl in *; try discriminate.
      - unfold onOpen, fetchInitialStatus. reflexivity.
      - rewrite onMessage_by_kind. simpl.
        destruct (kind_of data); try discriminate; try reflexivity.
        by destruct (stringifies (discriminant data)).
      - unfold click_button. destruct (button_disabled (state d)); [reflexivity|].
        by destruct (isSimulationRunning (state d)) as [[]|].
      - unfold drop. destruct (dropzone_disabled (state d)); [reflexivity|].
        by destruct files.
      - reflexivity.
      - reflexivity.
      - unfold onDrop_fulfilled.
        destruct (get result "total_vehicles") as [n|]; [|reflexivity].
        cbv zeta. by destruct (stringifies (js_coalesce n (JNum 0))).
      - reflexivity. }
    split; [exact H|]. unfold emergency_mode_active. by rewrite H.
  - intros d data Hk. by apply alert_frame_flag.
  - intros d data Hk. simpl. unfold emergency_mode_active.
    by rewrite (status_frame_snapshot data d Hk).
  - intros d code. simpl. unfold onClose.
    destruct (negb (code =? 1000)%Z && negb (code =? 1001)%Z); reflexivity.
  - reflexivity.
Qed.

Lemma emergency_flag_writers_witness :
  let d := setIntersectionStatus (JObj [("emergency_mode_active", JBool true)]) mount in
  emergency_mode_active (state (step d (Frame detection_frame))) = JBool true /\
  emergency_mode_active (state (step d (Frame (alert_frame false)))) = JBool false.
Proof.
  cbv zeta. split.
  - apply (proj1 emergency_flag_writers
             (setIntersectionStatus (JObj [("emergency_mode_active", JBool true)]) mount)
             (Frame detection_frame)).
    reflexivity.
  - apply (proj1 (proj2 emergency_flag_writers)). reflexivity.
Defined.

(** *** Commands *)

Lemma invocations_emit (e : Effect) (d : Dashboard) :
  invocations (emit e d) = (invocations d ++ if is_invoke e then [e] else [])%list.
Proof.
  unfold invocations. simpl. rewrite filter_app. f_equal. destruct e; reflexivity.
Qed.





End DashboardFacts.

(** ** The push channel feeding the dashboard *)

Section Pipeline.
Import WebSocketService Dashboard.
Variable JSON_parse : string -> option jsval.
Variable WebSocket_accepts : string -> bool.

(** C6.  A frame that [JSON.parse] rejects, that has no discriminant, or
    whose discriminant is not recognized changes none of the dashboard's
    state cells, in whatever state the service and the dashboard are; and
    over any sequence of frames the state reached is the one reached by the
    other frames alone. *)
Theorem dropped_frames_change_nothing :
  (forall (st : @WebSocketService.State Dashboard) (s : nat) (raw : string),
     messageHandler st = None \/ messageHandler st = Some onMessage ->
     dropped (JSON_parse raw) = true ->
     state (app (WebSocketService.step JSON_parse WebSocket_accepts st
                   (SocketMessage s raw)))
     = state (app st)) /\
  (forall (frames : list jsval) (d : Dashboard),
     state (process_frames frames d) =
     state (process_frames
              (filter (fun data => dropped (Some data) = false) frames) d)).
Proof.
  split.
  - intros st s raw Hh Hd. simpl.
    destruct (readyState s st) as [[]|]; try reflexivity.
    unfold onmessage.
    destruct (JSON_parse raw) as [data|]; [|reflexivity].
    destruct Hh as [-> | ->]; [reflexivity|].
    pose proof (onMessage_dropped data (app st) Hd) as H.
    pose proof (onMessage_normal data (app st)) as Hn.
    destruct (onMessage data (app st)) as [d' c]. simpl in *. subst c. exact H.
  - induction frames as [|data frames IH]; intros d; [reflexivity|].
    rewrite filter_cons.
    destruct (decide (dropped (Some data) = false)) as [Hd | Hd].
    + apply (IH (fst (onMessage data d))).
    + apply not_false_is_true in Hd.
      change (state (process_frames frames (fst (onMessage data d))) =
              state (process_frames (filter (fun data => dropped (Some data) = false) frames) d)).
      rewrite <- IH. apply process_frames_state_ext, onMessage_dropped, Hd.
Qed.

End Pipeline.

Lemma dropped_frames_change_nothing_witness :
  let parse (raw : string) : option jsval :=
    if String.eqb raw "{}" then Some (JObj []) else None in
  let st := WebSocketService.run parse (fun _ => true)
              (WebSocketService.create (fun _ => true)
                 "ws://localhost:8000/ws/traffic-updates" Dashboard.mount)
              [WebSocketService.CallOnMessage Dashboard.onMessage;
               WebSocketService.SocketOpen 0] in
  Dashboard.state
    (WebSocketService.app
       (WebSocketService.step parse (fun _ => true) st
          (WebSocketService.SocketMessage 0 "{}")))
  = Dashboard.state (WebSocketService.app st) /\
  Dashboard.state
    (WebSocketService.app
       (WebSocketService.step parse (fun _ => true) st
          (WebSocketService.SocketMessage 0 "not json")))
  = Dashboard.state (WebSocketService.app st).
Proof.
  cbv zeta. split.
  - apply (proj1 (dropped_frames_change_nothing
                    (fun raw => if String.eqb raw "{}" then Some (JObj []) else None)
                    (fun _ => true))).
    + right. reflexivity.
    + reflexivity.
  - apply (proj1 (dropped_frames_change_nothing
                    (fun raw => if String.eqb raw "{}" then Some (JObj []) else None)
                    (fun _ => true))).
    + right. reflexivity.
    + reflexivity.
Defined.

(** * Further properties *)

(** ** [WebSocketService]: what is outstanding, what is held, what is sent *)

Section ServiceInvariants.
Import WebSocketService Channel.
Context {A : Type}.
Variable JSON_parse : string -> option jsval.
Variable WebSocket_accepts : string -> bool.

Local Abbreviation State := (@State A).
Local Abbreviation connect := (@connect A WebSocket_accepts).
Local Abbreviation retry := (@retry A WebSocket_accepts).
Local Abbreviation step := (@step A JSON_parse WebSocket_accepts).
Local Abbreviation run := (@run A JSON_parse WebSocket_accepts).
Local Abbreviation create := (@create A WebSocket_accepts).
Local Abbreviation failures := (@failures A JSON_parse WebSocket_accepts).
Local Abbreviation fire := (@fire A JSON_parse WebSocket_accepts).

Lemma outstanding_exclusive (st : State) : outstanding st -> exclusive st.
Proof.
  intros [[Ht Hl] | H]; [left; split; [exact Ht | lia] | right; exact H].
Qed.

Lemma some_live_socket (st : State) (s : nat) (r : ReadyState) :
  readyState s st = Some r -> live r = true -> (1 <= live_sockets st)%nat.
Proof.
  intros E Hr. destruct (live_sockets st) eqn:Hl; [|lia].
  rewrite (no_live_socket st s r Hl E) in Hr. discriminate.
Qed.

Lemma not_connected (st : State) : live_sockets st = 0%nat -> connected st = false.
Proof.
  intros Hl. unfold connected. destruct (ws st) as [s|]; [|reflexivity].
  destruct (readyState s st) as [r|] eqn:E; [|reflexivity].
  pose proof (no_live_socket st s r Hl E). by destruct r.
Qed.

Lemma schedule_pending (st : State) :
  timers (clearReconnectInterval st) = ∅ ->
  exists t d,
    timers (scheduleReconnect st) = {[t := d]} /\
    reconnectIntervalId (scheduleReconnect st) = Some t /\
    sockets (scheduleReconnect st) = sockets st.
Proof.
  intros Ht. unfold scheduleReconnect. simpl.
  exists (nextTimer (clearReconnectInterval st)),
         (reconnectDelay (clearReconnectInterval st)).
  rewrite Ht. split; [apply insert_empty|]. split; [reflexivity|].
  apply clear_sockets.
Qed.

Lemma clear_of_empty (st : State) :
  timers st = ∅ -> timers (clearReconnectInterval st) = ∅.
Proof.
  intros Ht. unfold clearReconnectInterval.
  destruct (reconnectIntervalId st); simpl; rewrite Ht;
    [apply delete_empty | reflexivity].
Qed.

Lemma connect_outstanding (st : State) :
  timers st = ∅ -> live_sockets st = 0%nat -> outstanding (connect st).
Proof.
  intros Ht Hl. unfold WebSocketService.connect.
  rewrite (not_connected st Hl). simpl.
  destruct (WebSocket_accepts (url st)).
  - left. simpl. split; [exact Ht|]. unfold live_sockets in *. simpl.
    rewrite live_count_snoc. simpl. lia.
  - right. set (st1 := emit _ _).
    destruct (schedule_pending st1) as (t & d & H1 & H2 & H3).
    { apply clear_of_empty. exact Ht. }
    exists t, d. split; [exact H1|]. split; [exact H2|].
    unfold live_sockets in *. rewrite H3. exact Hl.
Qed.

Lemma step_outstanding (st : State) (ev : Event) :
  outstanding st -> is_call_disconnect ev = false -> outstanding (step st ev).
Proof.
  intros H Hev. pose proof (outstanding_exclusive st H) as Hx.
  destruct ev as [s | s raw | s | s | s | t | h |]; simpl; try discriminate.
  - unfold readyState. destruct (sockets st !! s) as [[]|] eqn:E; try done.
    pose proof (live_count_insert _ _ _ OPEN E) as Hc. simpl in Hc.
    assert (1 <= live_sockets st)%nat as Hge by (eapply some_live_socket; [exact E|done]).
    destruct H as [[Ht Hl] | (t & d & _ & _ & Hl)]; [|lia].
    left. unfold onopen. split.
    + apply clear_of_empty. exact Ht.
    + unfold live_sockets in *. rewrite clear_sockets. simpl. lia.
  - unfold readyState. destruct (sockets st !! s) as [[]|]; try done.
    unfold WebSocketService.onmessage.
    destruct (JSON_parse raw); [destruct (messageHandler st)|]; try exact H.
    destruct (w j (app st)) as [a []]; exact H.
  - unfold readyState. destruct (sockets st !! s) as [r|]; try done.
    destruct (live r); exact H.
  - unfold readyState. destruct (sockets st !! s) as [[]|] eqn:E; try done.
    unfold outstanding.
    rewrite (closing_live_sockets st s E). exact H.
  - unfold readyState. destruct (sockets st !! s) as [r|] eqn:E; try done.
    destruct (live r) eqn:Er; try done.
    pose proof (live_count_insert _ _ _ CLOSED E) as Hc. rewrite Er in Hc. simpl in Hc.
    assert (1 <= live_sockets st)%nat as Hge by (eapply some_live_socket; [exact E|done]).
    destruct H as [[Ht Hl] | (t & d & _ & _ & Hl)]; [|lia].
    right. unfold onclose. set (st1 := set_ws None _).
    destruct (schedule_pending st1) as (t & d & H1 & H2 & H3).
    { apply clear_of_empty. exact Ht. }
    exists t, d. split; [exact H1|]. split; [exact H2|].
    unfold live_sockets in *. rewrite H3. simpl. lia.
  - destruct (timers st !! t) as [d|] eqn:E; try done.
    destruct H as [[Ht Hl] | (t' & d' & Ht & Hid & Hl)].
    { rewrite Ht in E. by rewrite lookup_empty in E. }
    rewrite Ht in E. apply lookup_singleton_Some in E as [-> ->].
    unfold WebSocketService.retry. apply connect_outstanding.
    + simpl. rewrite Ht. apply delete_singleton_eq.
    + exact Hl.
  - exact H.
Qed.

Lemma create_outstanding (u : string) (a : A) : outstanding (create u a).
Proof. apply connect_outstanding; reflexivity. Qed.

(** X1.  Without [disconnect] the service never gives up: whatever fails, and
    however often, either one socket is not closed or the reconnect
    timeout is pending, never neither and never both. *)
Theorem never_gives_up (u : string) (a : A) (evs : list Event) :
  forallb (fun ev => negb (is_call_disconnect ev)) evs = true ->
  outstanding (run (create u a) evs).
Proof.
  induction evs as [|ev evs IH] using rev_ind; intros Hevs.
  - apply create_outstanding.
  - rewrite forallb_app in Hevs. apply andb_true_iff in Hevs as [H1 H2].
    simpl in H2. rewrite andb_true_r in H2. apply negb_true_iff in H2.
    rewrite run_app. apply (step_outstanding _ ev); [by apply IH | exact H2].
Qed.


(** *** The socket the service holds *)

Lemma ws_disconnect (st : State) : ws (disconnect st) = None.
Proof.
  unfold disconnect. cbv zeta.
  match goal with
  | |- ws (match ?x with _ => _ end) = None => destruct x eqn:E
  end; [reflexivity | exact E].
Qed.

Lemma step_holds_live (st : State) (ev : Event) :
  holds_live st -> holds_live (step st ev).
Proof.
  intros H. destruct ev as [s | s raw | s | s | s | t | h |]; simpl.
  - destruct (readyState s st) as [[]|] eqn:E; try exact H.
    intros s' Hws. unfold onopen, clearReconnectInterval, readyState in *.
    assert (ws st = Some s') as Hws'.
    { revert Hws. simpl. by destruct (reconnectIntervalId st). }
    assert (sockets (match reconnectIntervalId st with
                     | Some t => _ | None => _ end) = <[s:=OPEN]> (sockets st)) as ->.
    { simpl. by destruct (reconnectIntervalId st). }
    destruct (decide (s = s')) as [<- | Hne].
    + exists OPEN. split; [|reflexivity].
      apply list_lookup_insert_eq. eapply lookup_lt_Some, E.
    + rewrite list_lookup_insert_ne by exact Hne. by apply H.
  - destruct (readyState s st) as [[]|]; try exact H.
    unfold WebSocketService.onmessage.
    destruct (JSON_parse raw); [destruct (messageHandler st)|]; try exact H.
    destruct (w j (app st)) as [a []]; exact H.
  - destruct (readyState s st) as [r|]; try exact H. destruct (live r); exact H.
  - destruct (readyState s st) as [[]|] eqn:E; try exact H.
    intros s' Hws. unfold readyState in *. simpl.
    destruct (decide (s = s')) as [<- | Hne].
    + exists CLOSING. split; [|reflexivity].
      apply list_lookup_insert_eq. eapply lookup_lt_Some, E.
    + rewrite list_lookup_insert_ne by exact Hne. by apply H.
  - destruct (readyState s st) as [r|]; try exact H. destruct (live r); [|exact H].
    intros s' Hws. exfalso. revert Hws.
    unfold onclose, scheduleReconnect, clearReconnectInterval. simpl.
    by destruct (reconnectIntervalId st).
  - destruct (timers st !! t); [|exact H].
    unfold WebSocketService.retry, WebSocketService.connect.
    destruct (connected _) eqn:Ec; [exact H|]. simpl.
    destruct (WebSocket_accepts (url st)).
    + intros s' [= <-]. exists CONNECTING. split; [|reflexivity].
      unfold readyState. simpl.
      rewrite lookup_app_r by lia. by rewrite Nat.sub_diag.
    + intros s' Hws. unfold scheduleReconnect, clearReconnectInterval, readyState in *.
      revert Hws. simpl. destruct (reconnectIntervalId st); simpl; apply H.
  - exact H.
  - intros s' Hws. rewrite ws_disconnect in Hws. discriminate.
Qed.

Lemma run_holds_live (u : string) (a : A) (evs : list Event) :
  holds_live (run (create u a) evs).
Proof.
  induction evs as [|ev evs IH] using rev_ind.
  - unfold WebSocketService.create, WebSocketService.connect. simpl.
    destruct (WebSocket_accepts u).
    + intros s [= <-]. by exists CONNECTING.
    + intros s. discriminate.
  - rewrite run_app. apply (step_holds_live _ ev), IH.
Qed.

(** While a service holds a socket, that socket is the one that is not
    closed and no timeout is pending. *)
Lemma held_socket_alone (u : string) (a : A) (evs : list Event) (s : nat) :
  ws (run (create u a) evs) = Some s ->
  live_sockets (run (create u a) evs) = 1%nat /\
  timers (run (create u a) evs) = ∅.
Proof.
  intros Hws. destruct (run_holds_live u a evs s Hws) as (r & E & Hr).
  pose proof (some_live_socket _ s r E Hr) as Hge.
  destruct (run_exclusive JSON_parse WebSocket_accepts _ evs
              (create_exclusive WebSocket_accepts u a))
    as [[Ht Hl] | (t & d & _ & _ & Hl)]; [|lia].
  split; [lia | exact Ht].
Qed.

(** X2.  In every state a service can reach, the socket it holds is not
    closed: it is connecting, open, or closing because the server started
    the closing handshake (a socket that [disconnect] closes is let go at
    once).  It is then the one socket that is not closed, and no reconnect
    timeout is pending.  Only while the held socket is open does
    [isConnected] say so. *)
Theorem held_socket_is_live (u : string) (a : A) (evs : list Event) (s : nat) :
  ws (run (create u a) evs) = Some s ->
  (exists r, readyState s (run (create u a) evs) = Some r /\ live r = true) /\
  live_sockets (run (create u a) evs) = 1%nat /\
  timers (run (create u a) evs) = ∅ /\
  (isConnected (run (create u a) evs) = true <->
   readyState s (run (create u a) evs) = Some OPEN).
Proof.
  intros Hws. split; [exact (run_holds_live u a evs s Hws)|].
  destruct (held_socket_alone u a evs s Hws) as [Hl Ht].
  split; [exact Hl|]. split; [exact Ht|].
  unfold isConnected, connected. rewrite Hws.
  destruct (readyState s (run (create u a) evs)) as [[]|]; simpl;
    split; congruence.
Qed.

(** *** Channel *)

Lemma schedule_sockets (st : State) :
  sockets (scheduleReconnect st) = sockets st.
Proof.
  unfold scheduleReconnect, clearReconnectInterval. simpl.
  by destruct (reconnectIntervalId st).
Qed.

Lemma step_none_open (st : State) (ev : Event) :
  is_socket_open ev = false ->
  Forall (fun r => is_open r = false) (sockets st) ->
  Forall (fun r => is_open r = false) (sockets (step st ev)).
Proof.
  intros Hev H. destruct ev as [s | s raw | s | s | s | t | h |]; simpl;
    try discriminate.
  - destruct (readyState s st) as [[]|]; try exact H.
    unfold WebSocketService.onmessage.
    destruct (JSON_parse raw); [destruct (messageHandler st)|]; try exact H.
    destruct (w j (app st)) as [a []]; exact H.
  - destruct (readyState s st) as [r|]; try exact H. destruct (live r); exact H.
  - destruct (readyState s st) as [[]|]; try exact H.
    simpl. apply Forall_insert; [exact H | reflexivity].
  - destruct (readyState s st) as [r|]; try exact H. destruct (live r); [|exact H].
    unfold onclose. rewrite schedule_sockets. simpl.
    apply Forall_insert; [exact H | reflexivity].
  - destruct (timers st !! t); [|exact H].
    unfold WebSocketService.retry, WebSocketService.connect.
    destruct (connected _); [exact H|]. simpl.
    destruct (WebSocket_accepts (url st)).
    + simpl. apply Forall_app. split; [exact H|]. by constructor.
    + rewrite schedule_sockets. exact H.
  - exact H.
  - unfold disconnect. simpl.
    destruct (ws (clearReconnectInterval _)) as [s|] eqn:Ews; simpl.
    + unfold socket_close, readyState. simpl. rewrite clear_sockets. simpl.
      destruct (sockets st !! s) as [[]|]; simpl; rewrite ?clear_sockets; simpl;
        try exact H; (apply Forall_insert; [exact H | reflexivity]).
    + rewrite clear_sockets. exact H.
Qed.

Lemma run_none_open (u : string) (a : A) (evs : list Event) :
  forallb (fun ev => negb (is_socket_open ev)) evs = true ->
  Forall (fun r => is_open r = false) (sockets (run (create u a) evs)).
Proof.
  induction evs as [|ev evs IH] using rev_ind; intros Hevs.
  - unfold WebSocketService.create, WebSocketService.connect. simpl.
    destruct (WebSocket_accepts u); simpl.
    + by repeat constructor.
    + constructor.
  - rewrite forallb_app in Hevs. apply andb_true_iff in Hevs as [H1 H2].
    simpl in H2. rewrite andb_true_r in H2. apply negb_true_iff in H2.
    rewrite run_app. apply (step_none_open _ ev H2), IH, H1.
Qed.

(** X3.  [sendMessage] writes no field of the service.  It hands the message to
    the socket if, and only if, the socket the service holds is open, and
    then no reconnect timeout is pending; otherwise the message is dropped
    with a warning, not queued: so it is before any socket has opened, and
    right after [disconnect]. *)
Theorem sendMessage_only_when_open (u : string) (a : A) (evs : list Event)
    (message : jsval) :
  let st := run (create u a) evs in
  fst (sendMessage message st) =
    emit match snd (sendMessage message st) with
         | Some _ => ConsoleLog "[WS] Message sent:"
         | None => ConsoleWarn "[WS] Cannot send message, WebSocket is not open."
         end st /\
  (snd (sendMessage message st) = None \/
   exists s,
     snd (sendMessage message st) = Some (s, message) /\
     ws st = Some s /\ readyState s st = Some OPEN /\ timers st = ∅) /\
  (forall s, ws st = Some s -> readyState s st = Some OPEN ->
     snd (sendMessage message st) = Some (s, message)) /\
  snd (sendMessage message (disconnect st)) = None /\
  (forallb (fun ev => negb (is_socket_open ev)) evs = true ->
   snd (sendMessage message st) = None).
Proof.
  cbv zeta. set (st := run (create u a) evs).
  split; [|split; [|split; [|split]]].
  - unfold sendMessage. destruct (ws st) as [s|]; [|reflexivity].
    by destruct (readyState s st) as [[]|].
  - unfold sendMessage. destruct (ws st) as [s|] eqn:Hws; [|by left].
    destruct (readyState s st) as [[]|] eqn:E; try by left.
    right. exists s. split; [reflexivity|]. split; [reflexivity|].
    split; [exact E|].
    apply (held_socket_alone u a evs s Hws).
  - intros s Hws E. unfold sendMessage. by rewrite Hws, E.
  - unfold sendMessage.
    by rewrite ws_disconnect.
  - intros Hevs. pose proof (run_none_open u a evs Hevs) as Hno. fold st in Hno.
    unfold sendMessage. destruct (ws st) as [s|]; [|reflexivity].
    destruct (readyState s st) as [r|] eqn:E; [|reflexivity].
    unfold readyState in E.
    pose proof (proj1 (Forall_lookup _ _) Hno s r E) as Hr. simpl in Hr.
    by destruct r.
Qed.


(** *** The delays *)

Lemma delay_value_range (d : Q) :
  delay_value d -> (5000 <= d)%Q /\ (d <= 30000)%Q.
Proof.
  intros [H | [H | [H | [H | [H | H]]]]]; rewrite H; split; lra.
Qed.

Lemma timers_in_range_delete (st : State) (t : nat) :
  timers_in_range st -> timers_in_range (clearTimeout t st).
Proof.
  intros H t' d. simpl. intros E.
  apply lookup_delete_Some in E as [_ E]. by apply (H t').
Qed.

Lemma timers_in_range_clear (st : State) :
  timers_in_range st -> timers_in_range (clearReconnectInterval st).
Proof.
  intros H. unfold clearReconnectInterval.
  destruct (reconnectIntervalId st) as [t|]; [|exact H].
  apply (timers_in_range_delete st t H).
Qed.

Lemma timers_in_range_schedule (st : State) :
  delay_value (reconnectDelay st) -> timers_in_range st ->
  timers_in_range (scheduleReconnect st).
Proof.
  intros Hd H t d. unfold scheduleReconnect. simpl. intros E.
  apply lookup_insert_Some in E as [[_ <-] | [_ E]].
  - unfold clearReconnectInterval. by destruct (reconnectIntervalId st).
  - by apply (timers_in_range_clear st H t).
Qed.

Lemma step_timers_in_range (st : State) (ev : Event) :
  maxReconnectDelay st = 30000%Q -> delay_value (reconnectDelay st) ->
  timers_in_range st -> timers_in_range (step st ev).
Proof.
  intros Hm Hd H. destruct ev as [s | s raw | s | s | s | t | h |]; simpl.
  - destruct (readyState s st) as [[]|]; try exact H.
    unfold onopen. apply timers_in_range_clear. exact H.
  - destruct (readyState s st) as [[]|]; try exact H.
    unfold WebSocketService.onmessage.
    destruct (JSON_parse raw); [destruct (messageHandler st)|]; try exact H.
    destruct (w j (app st)) as [a []]; exact H.
  - destruct (readyState s st) as [r|]; try exact H. destruct (live r); exact H.
  - destruct (readyState s st) as [[]|]; exact H.
  - destruct (readyState s st) as [r|]; try exact H. destruct (live r); [|exact H].
    unfold onclose. apply timers_in_range_schedule; [exact Hd | exact H].
  - destruct (timers st !! t); [|exact H].
    unfold WebSocketService.retry, WebSocketService.connect.
    pose proof (timers_in_range_delete st t H) as H'.
    destruct (connected _); [exact H'|]. simpl.
    destruct (WebSocket_accepts (url st)); [exact H'|].
    apply timers_in_range_schedule; [|exact H'].
    simpl. rewrite Hm. by apply next_delay_value.
  - exact H.
  - unfold disconnect. cbv zeta.
    set (st2 := set_messageHandler None _).
    assert (timers_in_range st2) as H2.
    { apply (timers_in_range_clear (emit _ st)). exact H. }
    destruct (ws st2) as [s|]; [|exact H2].
    unfold socket_close. destruct (readyState s st2) as [[]|]; exact H2.
Qed.

Lemma run_timers_in_range (u : string) (a : A) (evs : list Event) :
  timers_in_range (run (create u a) evs).
Proof.
  induction evs as [|ev evs IH] using rev_ind.
  - unfold WebSocketService.create, WebSocketService.connect. simpl.
    destruct (WebSocket_accepts u).
    + intros t d. simpl. by rewrite lookup_empty.
    + apply timers_in_range_schedule.
      * left. reflexivity.
      * intros t d. simpl. by rewrite lookup_empty.
  - rewrite run_app.
    destruct (reachable_delay JSON_parse WebSocket_accepts u a evs) as [Hm Hd].
    apply (step_timers_in_range _ ev Hm Hd IH).
Qed.

(** X4.  Whatever happens to a service, its reconnect delay and the delay of
    every pending timeout lie between 5000 ms and 30000 ms, and the maximum
    stays 30000 ms. *)
Theorem delays_stay_in_range (u : string) (a : A) (evs : list Event) :
  let st := run (create u a) evs in
  maxReconnectDelay st = 30000%Q /\
  (5000 <= reconnectDelay st)%Q /\ (reconnectDelay st <= 30000)%Q /\
  forall t d, timers st !! t = Some d -> (5000 <= d)%Q /\ (d <= 30000)%Q.
Proof.
  cbv zeta.
  destruct (reachable_delay JSON_parse WebSocket_accepts u a evs) as [Hm Hd].
  split; [exact Hm|].
  destruct (delay_value_range _ Hd) as [H1 H2].
  split; [exact H1|]. split; [exact H2|].
  intros t d E. apply delay_value_range.
  apply (run_timers_in_range u a evs t d E).
Qed.

Lemma pow_ge_cap (n : nat) :
  (5 <= n)%nat -> (30000 <= 5000 * 1.5 ^ Z.of_nat n)%Q.
Proof.
  intros Hn.
  assert (1.5 ^ 5 <= 1.5 ^ Z.of_nat n)%Q as H.
  { apply Qpower_le_compat_l; [lia | lra]. }
  assert (1.5 ^ 5 == 243 # 32) as E by reflexivity.
  rewrite E in H. lra.
Qed.

(** X5.  The backoff is capped from the sixth failure in a row on: the first
    five are followed by delays of 5000, 7500, 11250, 16875 and 25312.5 ms,
    each below the maximum, and every later one by exactly 30000 ms. *)
Theorem backoff_reaches_cap (u : string) (a : A) (N : nat) :
  WebSocket_accepts u = true -> (1 <= N)%nat ->
  exists d,
    scheduled_delay (failures N (create u a)) = Some d /\
    ((N <= 5)%nat -> d == 5000 * 1.5 ^ (Z.of_nat N - 1) /\ (d < 30000)%Q) /\
    ((6 <= N)%nat -> d == 30000).
Proof.
  intros Hu HN.
  destruct (failures_scheduled JSON_parse WebSocket_accepts (create u a) N)
    as (d & Hd & E); [by apply create_holds | | | exact HN |].
  { unfold WebSocketService.create, WebSocketService.connect. simpl. by rewrite Hu. }
  { unfold WebSocketService.create, WebSocketService.connect. simpl. by rewrite Hu. }
  exists d. split; [exact Hd|]. split.
  - intros H5. rewrite E.
    assert (N = 1 \/ N = 2 \/ N = 3 \/ N = 4 \/ N = 5)%nat
      as [-> | [-> | [-> | [-> | ->]]]] by lia; split; reflexivity.
  - intros H6. rewrite E. apply Q.min_l.
    replace (Z.of_nat N - 1)%Z with (Z.of_nat (N - 1)) by lia.
    apply pow_ge_cap. lia.
Qed.

(** *** A url the constructor rejects *)

Lemma rejected_retry (st : State) :
  WebSocket_accepts (url st) = false -> ws st = None -> sockets st = [] ->
  scheduled_delay st = Some (reconnectDelay st) ->
  let st' := fire st in
  url st' = url st /\ maxReconnectDelay st' = maxReconnectDelay st /\
  ws st' = None /\ sockets st' = [] /\
  reconnectDelay st' = Qmin (maxReconnectDelay st) (reconnectDelay st * 1.5) /\
  scheduled_delay st' = Some (reconnectDelay st') /\
  attempts st' = S (attempts st).
Proof.
  intros Hu Hws Hs Hd. cbv zeta. unfold WebSocketService.fire.
  unfold scheduled_delay in Hd.
  destruct (reconnectIntervalId st) as [t|] eqn:Ht; [|discriminate].
  simpl. rewrite Hd.
  unfold WebSocketService.retry, WebSocketService.connect, connected. simpl.
  rewrite Hws, Hu. simpl.
  unfold scheduleReconnect, clearReconnectInterval, scheduled_delay. simpl.
  rewrite Ht. simpl. rewrite lookup_insert_eq.
  repeat split; try done.
  unfold attempts. simpl. rewrite !filter_app, !length_app. simpl. lia.
Qed.

(** X6.  When the constructor rejects the url no socket ever exists, and the
    service keeps trying all the same: the constructor's attempt and every
    retry fail at once, each retry is one more attempt, and the next one is
    armed with the backoff delay. *)
Theorem rejected_url_keeps_retrying (u : string) (a : A) (k : nat) :
  WebSocket_accepts u = false ->
  let st := Nat.iter k fire (create u a) in
  sockets st = [] /\ ws st = None /\ attempts st = S k /\
  exists d,
    scheduled_delay st = Some d /\ d == Qmin 30000 (5000 * 1.5 ^ Z.of_nat k).
Proof.
  intros Hu. cbv zeta.
  assert (url (Nat.iter k fire (create u a)) = u /\
          maxReconnectDelay (Nat.iter k fire (create u a)) = 30000%Q /\
          ws (Nat.iter k fire (create u a)) = None /\
          sockets (Nat.iter k fire (create u a)) = [] /\
          scheduled_delay (Nat.iter k fire (create u a)) =
            Some (reconnectDelay (Nat.iter k fire (create u a))) /\
          attempts (Nat.iter k fire (create u a)) = S k /\
          reconnectDelay (Nat.iter k fire (create u a)) ==
            Qmin 30000 (5000 * 1.5 ^ Z.of_nat k)) as H.
  { induction k as [|k (H1 & H2 & H3 & H4 & H5 & H6 & H7)].
    - unfold WebSocketService.create, WebSocketService.connect. simpl.
      rewrite Hu. repeat split; try (symmetry; apply Q.min_r; simpl; lra).
    - simpl Nat.iter.
      destruct (rejected_retry (Nat.iter k fire (create u a)))
        as (G1 & G2 & G3 & G4 & G5 & G6 & G7); try done.
      { by rewrite H1. }
      cbv zeta in *. rewrite G1, G2, G7, H6.
      repeat split; try done.
      rewrite G5, H2, H7, backoff_step, pow_succ.
      apply Q.min_compat; [reflexivity|]. ring. }
  destruct H as (H1 & H2 & H3 & H4 & H5 & H6 & H7).
  repeat split; try done. eexists. split; [exact H5 | exact H7].
Qed.

(** *** Disconnecting while no socket is live *)

(** X7.  When [disconnect] is called on a service that has no live socket, as
    while a reconnect is scheduled, it is final: the pending timeout is
    cancelled, nothing is outstanding, and whatever happens from then on no
    connect attempt is made. *)
Theorem disconnect_between_attempts_is_final (u : string) (a : A)
    (evs evs' : list Event) :
  let st := run (create u a) evs in
  live_sockets st = 0%nat ->
  quiescent (disconnect st) /\
  attempts (run (disconnect st) evs') = attempts st.
Proof.
  cbv zeta. intros Hl.
  pose proof (run_exclusive JSON_parse WebSocket_accepts _ evs
                (create_exclusive WebSocket_accepts u a)) as Hx.
  split.
  - by apply disconnect_quiescent.
  - apply (disconnect_without_socket_is_final JSON_parse WebSocket_accepts);
      assumption.
Qed.

End ServiceInvariants.

(** ** [handleResponse]: what a caller can rely on *)

Section HttpExtras.
Import Http.

(** X8.  Whenever [handleResponse] fails, the value it gives to [new Error]
    is truthy.  It is a string that is not empty in every case but one: a
    response outside 200-299 whose body is JSON with a truthy [detail] that
    is not a string, where that [detail] is given to [new Error] as it
    is. *)
Theorem handleResponse_rejection_has_message (r : Response) (m : jsval) :
  handleResponse r = Rejected m ->
  truthy m = true /\
  ((exists text, m = JStr text /\ text <> "") \/
   (ok r = false /\
    exists body,
      json r = Some body /\ m = opt_chain body "detail" /\
      forall text, m <> JStr text)).
Proof.
  assert (forall v, truthy v = true ->
            (exists text, v = JStr text /\ text <> "") \/
            (forall text, v <> JStr text)) as Hstr.
  { intros [| | b | n | text | l | ps] Hv; try (right; discriminate).
    left. exists text. split; [reflexivity|]. intros ->. discriminate. }
  unfold handleResponse. destruct (ok r); simpl.
  - destruct ((status r =? 204)%Z || (status r =? 202)%Z); [discriminate|].
    destruct (json r); [discriminate|]. intros [= <-].
    split; [reflexivity|]. left. eexists. split; [reflexivity | discriminate].
  - intros [= <-]. destruct (json r) as [body|] eqn:Ej.
    + unfold js_or. destruct (truthy (opt_chain body "detail")) eqn:E.
      * split; [exact E|]. destruct (Hstr _ E) as [H | H]; [by left|].
        right. split; [reflexivity|]. exists body. done.
      * split; [reflexivity|]. left. eexists.
        split; [reflexivity | discriminate].
    + unfold opt_chain. simpl. unfold js_or. simpl.
      destruct (String.eqb (statusText r) "") eqn:Es; simpl.
      * split; [reflexivity|]. left. eexists.
        split; [reflexivity | discriminate].
      * rewrite Es. simpl. rewrite Es. split; [reflexivity|]. left.
        exists (statusText r).
        split; [reflexivity|]. intros H. rewrite H in Es. discriminate.
Qed.

(** X9.  [handleResponse] succeeds only on a status in 200-299, and its result is
    then the parsed body, handed on as it is, or for 202 and 204 the
    synthetic payload with the status and the status text. *)
Theorem handleResponse_resolves_on_success_only (r : Response) (v : jsval) :
  handleResponse r = Resolved v ->
  ok r = true /\
  (((status r = 202 \/ status r = 204)%Z /\
    v = JObj [("status", JNum (inject_Z (status r)));
              ("message", JStr (statusText r))]) \/
   (status r <> 202%Z /\ status r <> 204%Z /\ json r = Some v)).
Proof.
  unfold handleResponse. destruct (ok r); simpl; [|discriminate].
  intros H. split; [reflexivity|].
  destruct (Z.eqb_spec (status r) 204) as [E4|N4]; simpl in *.
  - left. split; [by right|]. by injection H as <-.
  - destruct (Z.eqb_spec (status r) 202) as [E2|N2]; simpl in *.
    + left. split; [by left|]. by injection H as <-.
    + right. destruct (json r); [|discriminate]. by injection H as <-.
Qed.

End HttpExtras.

Lemma handleResponse_rejection_has_message_witness :
  truthy (JArr []) = true /\
  ((exists text, JArr [] = JStr text /\ text <> "") \/
   (Http.ok {| Http.status := 422; Http.statusText := "Unprocessable Entity";
               Http.json := Some (JObj [("detail", JArr [])]) |} = false /\
    exists body,
      Http.json {| Http.status := 422; Http.statusText := "Unprocessable Entity";
                   Http.json := Some (JObj [("detail", JArr [])]) |} = Some body /\
      JArr [] = opt_chain body "detail" /\
      forall text, JArr [] <> JStr text)).
Proof.
  apply (handleResponse_rejection_has_message
           {| Http.status := 422; Http.statusText := "Unprocessable Entity";
              Http.json := Some (JObj [("detail", JArr [])]) |}).
  reflexivity.
Defined.

Lemma handleResponse_resolves_on_success_only_witness :
  Http.ok {| Http.status := 200; Http.statusText := "OK";
             Http.json := Some (JObj [("total_vehicles", JNum 12)]) |} = true.
Proof.
  apply (handleResponse_resolves_on_success_only
           {| Http.status := 200; Http.statusText := "OK";
              Http.json := Some (JObj [("total_vehicles", JNum 12)]) |}
           (JObj [("total_vehicles", JNum 12)])).
  reflexivity.
Defined.

(** ** The dashboard: frames, connection loss, commands *)

Section DashboardExtras.
Import Dashboard Analytics.

Lemma lookup_set_prop_ne (k k' : string) (v : jsval)
    (ps : list (string * jsval)) :
  k <> k' -> lookup_prop k (set_prop k' v ps) = lookup_prop k ps.
Proof.
  intros Hne. induction ps as [|[k0 v0] ps IH]; simpl.
  - destruct (String.eqb_spec k' k); [congruence | reflexivity].
  - destruct (String.eqb_spec k0 k') as [-> | Hk]; simpl.
    + destruct (String.eqb_spec k' k); [congruence | reflexivity].
    + destruct (String.eqb k0 k); [reflexivity | exact IH].
Qed.

Lemma toasts_emit (e : Effect) (d : Dashboard) :
  toasts (emit e d) = (toasts d ++ if is_toast e then [e] else [])%list.
Proof.
  unfold toasts. simpl. rewrite filter_app. f_equal. destruct e; reflexivity.
Qed.


(** *** Detection frames and the tab effect *)

(** X10.  A [vehicle_detection] frame stores its payload as the detection
    results and changes no other cell, nor does it notify or log.  Unless
    the detection tab is showing, the next run of the tab effect then arms
    the timeout that wipes a truthy result again; on the detection tab it
    arms nothing.  Once that timeout has fired, the state is the one a
    wiped dashboard would have had without the frame. *)
Theorem pushed_detection_is_wiped_off_tab (data : jsval) (d : Dashboard) :
  kind_of data = Detection ->
  let d1 := fst (onMessage data d) in
  detectionResults (state d1) = payload data /\
  intersectionStatus (state d1) = intersectionStatus (state d) /\
  analyticsData (state d1) = analyticsData (state d) /\
  isSimulationRunning (state d1) = isSimulationRunning (state d) /\
  isLoading (state d1) = isLoading (state d) /\
  isConnecting (state d1) = isConnecting (state d) /\
  activeTab (state d1) = activeTab (state d) /\
  effects d1 = effects d /\
  snd (tab_effect d1) =
    match activeTab (state d) with
    | detection_tab => false
    | _ => truthy (payload data)
    end /\
  state (clear_detection d1) = state (clear_detection d).
Proof.
  intros Hk. cbv zeta. rewrite onMessage_by_kind, Hk. simpl.
  repeat split.
Qed.

(** *** Alert frames *)

Lemma set_prop_keys (k k' : string) (v : jsval) (ps : list (string * jsval)) :
  k <> k' -> k ∈ (set_prop k' v ps).*1 <-> k ∈ ps.*1.
Proof.
  intros Hne. induction ps as [|[k0 v0] ps IH]; simpl.
  - rewrite list_elem_of_singleton. split; [done | by intros ?%elem_of_nil].
  - destruct (String.eqb k0 k'); simpl; [reflexivity|].
    rewrite !elem_of_cons, IH. reflexivity.
Qed.

(** X11.  An [emergency_alert] frame leaves an object as the snapshot, even
    if there was none.  Its own properties are the own enumerable
    properties of the snapshot before, with the same values, and
    [emergency_mode_active], set from the frame; the other state cells stay
    as they were.  A frame that is not active shows the "resolved"
    notification.  An active one shows the emergency notification if its
    [emergency_type] and [detected_lane] convert to strings; if one of them
    does not, nothing is shown, the snapshot being updated all the same. *)
Theorem alert_frame_keeps_the_rest (data : jsval) (d : Dashboard) :
  kind_of data = Alert ->
  let d' := fst (onMessage data d) in
  (exists ps,
     intersectionStatus (state d') = JObj ps /\
     lookup_prop "emergency_mode_active" ps =
       js_coalesce (is_active data) (JBool false) /\
     forall k, k <> "emergency_mode_active" ->
       lookup_prop k ps =
       lookup_prop k (own_enumerable (intersectionStatus (state d))) /\
       (k ∈ ps.*1 <-> k ∈ (own_enumerable (intersectionStatus (state d))).*1)) /\
  detectionResults (state d') = detectionResults (state d) /\
  analyticsData (state d') = analyticsData (state d) /\
  isSimulationRunning (state d') = isSimulationRunning (state d) /\
  isLoading (state d') = isLoading (state d) /\
  isConnecting (state d') = isConnecting (state d) /\
  activeTab (state d') = activeTab (state d) /\
  toasts d' =
  (toasts d ++
   if truthy (is_active data) then
     if stringifies (opt_chain (payload data) "emergency_type") &&
        stringifies (opt_chain (payload data) "detected_lane")
     then [Toast ToastError "Emergency: in lane!"
             [opt_chain (payload data) "emergency_type";
              opt_chain (payload data) "detected_lane"]]
     else []
   else [Toast ToastPlain "Emergency situation resolved." []])%list.
Proof.
  intros Hk. cbv zeta. rewrite (alert_frame_state data d Hk).
  split; [|repeat (split; [reflexivity|])].
  - eexists. split; [reflexivity|]. split; [apply lookup_set_prop|].
    intros k Hne.
    assert (own_enumerable (js_coalesce (intersectionStatus (state d)) (JObj []))
            = own_enumerable (intersectionStatus (state d))) as ->.
    { unfold js_coalesce. by destruct (intersectionStatus (state d)). }
    split; [by apply lookup_set_prop_ne | by apply set_prop_keys].
  - rewrite onMessage_by_kind, Hk. cbv zeta.
    destruct (truthy (is_active data));
      [destruct (stringifies _ && stringifies _)|];
      simpl fst; rewrite toasts_emit; simpl; by rewrite ?app_nil_r.
Qed.

(** *** Losing the connection *)

(** X12.  After the close handler, whatever the state was: the dashboard shows
    "Connecting", the simulation counts as stopped, the snapshot and with
    it the emergency flag are gone, and the start/stop button is disabled,
    so a click does nothing.  Detection results and analytics stay.  An
    error notification is shown unless the close code is 1000 or 1001. *)
Theorem close_disables_the_controls (code : Z) (d : Dashboard) :
  let d' := onClose code d in
  indicator (state d') = "Connecting" /\
  isSimulationRunning (state d') = Some false /\
  intersectionStatus (state d') = JNull /\
  emergency_mode_active (state d') = JUndefined /\
  button_disabled (state d') = true /\
  click_button d' = d' /\
  detectionResults (state d') = detectionResults (state d) /\
  analyticsData (state d') = analyticsData (state d) /\
  invocations d' = invocations d /\
  (code = 1000%Z \/ code = 1001%Z -> toasts d' = toasts d) /\
  (code <> 1000%Z -> code <> 1001%Z ->
   toasts d' =
   (toasts d ++
    [Toast ToastError "Real-time connection lost. Attempting to reconnect..." []])%list).
Proof.
  cbv zeta. unfold onClose.
  assert (forall d1 : Dashboard,
            let d' := setIntersectionStatus JNull
                        (setIsSimulationRunning false (setIsConnecting true d1)) in
            indicator (state d') = "Connecting" /\
            isSimulationRunning (state d') = Some false /\
            intersectionStatus (state d') = JNull /\
            emergency_mode_active (state d') = JUndefined /\
            button_disabled (state d') = true /\
            click_button d' = d' /\
            detectionResults (state d') = detectionResults (state d1) /\
            analyticsData (state d') = analyticsData (state d1) /\
            effects d' = effects d1) as Hs.
  { intros d1. cbv zeta. repeat split.
    - unfold button_disabled. simpl. by destruct (isLoading (state d1)).
    - unfold click_button, button_disabled. simpl.
      by destruct (isLoading (state d1)). }
  set (d1 := if negb (code =? 1000)%Z && negb (code =? 1001)%Z then _ else _).
  destruct (Hs d1) as (H1 & H2 & H3 & H4 & H5 & H6 & H7 & H8 & H9).
  cbv zeta in *.
  repeat (split;
    [first [assumption
           | by (rewrite H7 || rewrite H8); unfold d1; case_match] |]).
  split; [|split].
  - unfold invocations. simpl. unfold d1. case_match; simpl;
      rewrite !filter_app; simpl; by rewrite !app_nil_r.
  - intros Hc. unfold toasts. simpl. unfold d1.
    destruct Hc as [-> | ->]; simpl; rewrite !filter_app; simpl;
      by rewrite !app_nil_r.
  - intros N1 N2. unfold toasts. simpl. unfold d1.
    destruct (Z.eqb_spec code 1000); [contradiction|].
    destruct (Z.eqb_spec code 1001); [contradiction|].
    simpl. rewrite !filter_app. simpl. by rewrite app_nil_r.
Qed.


(** *** Commands from start to end *)


(** X14.  A drop without an accepted file asks for nothing: one error
    notification, no request, no state change.  Otherwise the first file,
    and only it, is sent for detection.  If the request is rejected the
    state is as before with [isLoading] reset.  If it is fulfilled the
    result is stored.  When the result is not [null] and its
    [total_vehicles], or 0 in its place, converts to a string, the success
    notification is shown with that count and the detection tab comes up.
    When the result is [null], or the count does not convert, the tab stays
    and the failure notification is shown instead. *)
Theorem drop_from_start_to_end :
  (forall d : Dashboard,
     state (onDrop [] d) = state d /\ invocations (onDrop [] d) = invocations d /\
     toasts (onDrop [] d) =
     (toasts d ++ [Toast ToastError "No valid image file selected." []])%list) /\
  (forall (file : string) (files : list string) (d : Dashboard),
     invocations (onDrop (file :: files) d) =
     (invocations d ++ [Invoke (detectVehicles file)])%list) /\
  (forall (file : string) (files : list string) (message : jsval) (d : Dashboard),
     state (onDrop_rejected message (onDrop (file :: files) d)) =
     state (setIsLoading false d)) /\
  (forall (file : string) (files : list string) (result : jsval) (d : Dashboard),
     let count := js_coalesce (opt_chain result "total_vehicles") (JNum 0) in
     let d' := onDrop_fulfilled result (onDrop (file :: files) d) in
     (nullish result = false -> stringifies count = true ->
      state d' =
      state (setIsLoading false
               (setActiveTab detection_tab (setDetectionResults result d))) /\
      toasts d' =
      (toasts (onDrop (file :: files) d) ++
       [Toast ToastSuccess "Analysis complete! vehicles found." [count]])%list) /\
     (nullish result = true \/ stringifies count = false ->
      state d' = state (setIsLoading false (setDetectionResults result d)) /\
      exists t,
        toasts d' =
        (toasts (onDrop (file :: files) d) ++
         [Toast ToastError "Image analysis failed:" t])%list)).
Proof.
  split; [|split; [|split]].
  - intros d. split; [reflexivity|]. split.
    + unfold onDrop. rewrite invocations_emit. simpl. apply app_nil_r.
    + unfold onDrop. by rewrite toasts_emit.
  - intros file files d. unfold onDrop. rewrite !invocations_emit. simpl.
    by rewrite app_nil_r.
  - reflexivity.
  - intros file files result d. cbv zeta.
    assert (forall m : jsval,
              state (onDrop_rejected m
                       (setDetectionResults result (onDrop (file :: files) d))) =
              state (setIsLoading false (setDetectionResults result d)) /\
              exists t,
                toasts (onDrop_rejected m
                          (setDetectionResults result (onDrop (file :: files) d))) =
                (toasts (onDrop (file :: files) d) ++
                 [Toast ToastError "Image analysis failed:" t])%list) as Hfail.
    { intros m. split; [reflexivity|]. eexists. unfold onDrop_rejected, toasts.
      simpl. rewrite !filter_app. simpl. rewrite !app_nil_r. reflexivity. }
    unfold onDrop_fulfilled, get, opt_chain.
    destruct (nullish result) eqn:Hn; cbv zeta.
    + split; [discriminate|]. intros _. apply Hfail.
    + destruct (stringifies _) eqn:Hs.
      * split; [|by intros [|]].
        intros _ _. split; [reflexivity|].
        unfold toasts. simpl. rewrite !filter_app. simpl.
        by rewrite !app_nil_r.
      * split; [discriminate|]. intros _. apply Hfail.
Qed.

(** X15.  An enabled click on the start/stop button asks for a stop when the
    simulation is running and for a start when it is not, once, and
    disables the button: the same click again does nothing. *)
Theorem click_toggles (d : Dashboard) :
  button_disabled (state d) = false ->
  invocations (click_button d) =
  (invocations d ++
   [Invoke match isSimulationRunning (state d) with
           | Some true => stopSimulation
           | _ => startSimulation
           end])%list /\
  button_disabled (state (click_button d)) = true /\
  click_button (click_button d) = click_button d.
Proof.
  intros H.
  assert (forall call msg,
            invocations (callApi call msg d) = (invocations d ++ [Invoke call])%list /\
            button_disabled (state (callApi call msg d)) = true /\
            click_button (callApi call msg d) = callApi call msg d) as Hc.
  { intros call msg. split; [|split].
    - unfold callApi. rewrite !invocations_emit. simpl. by rewrite app_nil_r.
    - reflexivity.
    - reflexivity. }
  assert (exists msg,
            click_button d =
            callApi match isSimulationRunning (state d) with
                    | Some true => stopSimulation
                    | _ => startSimulation
                    end msg d) as [msg ->].
  { unfold click_button. rewrite H.
    unfold handleStopSimulation, handleStartSimulation.
    destruct (isSimulationRunning (state d)) as [[]|]; eauto. }
  apply Hc.
Qed.

(** *** The initial status *)

(** X16.  The socket handlers were made by the mount effect and read the first
    render, not the current one.  So every open of the connection fetches
    the status, a fetch in flight notwithstanding, where the guard of
    [fetchInitialStatus] on the current render would hold it back; and the
    error handler shows its notification on every error, where on the
    current render it would show none once connected.  The error handler
    then leaves the state as the close handler does. *)
Theorem socket_handlers_see_the_first_render (d : Dashboard) :
  invocations (step d Opened) =
  (invocations d ++ [Invoke getIntersectionStatus])%list /\
  isLoading (state (step d Opened)) = true /\
  isConnecting (state (step d Opened)) = false /\
  (isLoading (state d) = true ->
   invocations (fetchInitialStatus (state d) d) = invocations d) /\
  toasts (step d Errored) =
  (toasts d ++
   [Toast ToastError "WebSocket connection error. Check if backend is running." []])%list /\
  (isConnecting (state d) = false -> toasts (onError (state d) d) = toasts d) /\
  state (step d Errored) = state (onClose 1000 d).
Proof.
  split; [|split; [reflexivity|split; [reflexivity|split; [|split; [|split]]]]].
  - unfold invocations. simpl. rewrite !filter_app. simpl. by rewrite !app_nil_r.
  - intros H. unfold fetchInitialStatus. by rewrite H.
  - unfold toasts. simpl. rewrite !filter_app. simpl. by rewrite app_nil_r.
  - intros H. unfold onError, toasts. rewrite H. simpl.
    rewrite filter_app. simpl. apply app_nil_r.
  - reflexivity.
Qed.

(** X17.  A fetched status is taken in like a pushed one: when its status text is
    a string or absent, the state after the fetch is the state after a
    status frame with that payload, with [isLoading] reset.  When the
    status text is something else the two part: the frame keeps the new
    snapshot and the old running flag, the fetch drops the snapshot and
    counts the simulation as stopped. *)
Theorem fetched_status_acts_like_a_frame (status : jsval) (d : Dashboard) :
  let frame := JObj [("type", JStr "intersection_status"); ("data", status)] in
  (isRunning status <> None ->
   state (fetchInitialStatus_fetched status d) =
   state (setIsLoading false (fst (onMessage frame d)))) /\
  (isRunning status = None ->
   intersectionStatus (state (fetchInitialStatus_fetched status d)) = JNull /\
   isSimulationRunning (state (fetchInitialStatus_fetched status d)) = Some false /\
   intersectionStatus (state (fst (onMessage frame d))) = status /\
   isSimulationRunning (state (fst (onMessage frame d))) =
   isSimulationRunning (state d)).
Proof.
  cbv zeta. rewrite onMessage_by_kind.
  change (kind_of (JObj [("type", JStr "intersection_status"); ("data", status)]))
    with Status.
  change (payload (JObj [("type", JStr "intersection_status"); ("data", status)]))
    with status.
  unfold fetchInitialStatus_fetched. cbv zeta.
  destruct (isRunning status) as [[]|]; split; try done.
Qed.

(** *** Analytics *)

(** X18.  [loadAnalytics] does nothing while something is loading or while data is
    there.  From an idle dashboard without data it asks for the daily
    summary once; once that is fulfilled with a truthy summary the data is
    kept and a further [loadAnalytics] asks for nothing, but once it is
    rejected the data is [null] and the next [loadAnalytics] asks again. *)
Theorem analytics_load_cycle :
  (forall d : Dashboard,
     isLoading (state d) = true \/ truthy (analyticsData (state d)) = true ->
     loadAnalytics d = d) /\
  (forall (d : Dashboard) (summary : jsval),
     isLoading (state d) = false -> truthy (analyticsData (state d)) = false ->
     truthy summary = true ->
     let d' := loadAnalytics_fulfilled summary (loadAnalytics d) in
     analyticsData (state d') = summary /\ isLoading (state d') = false /\
     invocations d' = (invocations d ++ [Invoke (getAnalyticsSummary "daily")])%list /\
     loadAnalytics d' = d') /\
  (forall (d : Dashboard) (message : jsval),
     isLoading (state d) = false -> truthy (analyticsData (state d)) = false ->
     let d' := loadAnalytics_rejected message (loadAnalytics d) in
     analyticsData (state d') = JNull /\ isLoading (state d') = false /\
     invocations (loadAnalytics d') =
     (invocations d ++ [Invoke (getAnalyticsSummary "daily");
                        Invoke (getAnalyticsSummary "daily")])%list).
Proof.
  split; [|split].
  - intros d H. unfold loadAnalytics.
    destruct H as [-> | ->]; [reflexivity | by rewrite orb_true_r].
  - intros d summary H1 H2 H3. cbv zeta. unfold loadAnalytics at 1 2 3.
    rewrite H1, H2. simpl. split; [reflexivity|]. split; [reflexivity|]. split.
    + unfold invocations. simpl. rewrite !filter_app. simpl. by rewrite !app_nil_r.
    + unfold loadAnalytics. simpl. by rewrite H3.
  - intros d message H1 H2. cbv zeta. unfold loadAnalytics at 2 3 4.
    rewrite H1, H2. simpl. split; [reflexivity|]. split; [reflexivity|].
    unfold loadAnalytics. simpl. unfold invocations. simpl.
    rewrite !filter_app. simpl. rewrite !app_nil_r. by rewrite <- app_assoc.
Qed.

End DashboardExtras.

(** ** Delivery to the dashboard *)

Section Delivery.
Import WebSocketService Dashboard.
Variable JSON_parse : string -> option jsval.
Variable WebSocket_accepts : string -> bool.

(** X19.  With the dashboard's handler registered, a frame that parses, arriving
    on an open socket, is handed to the handler exactly once, and the
    handler never throws, whatever the frame holds: the service logs no
    failure and changes nothing but the application state. *)
Theorem parsed_frame_is_delivered_once
    (st : @WebSocketService.State Dashboard) (s : nat) (raw : string)
    (data : jsval) :
  readyState s st = Some OPEN ->
  messageHandler st = Some onMessage ->
  JSON_parse raw = Some data ->
  WebSocketService.step JSON_parse WebSocket_accepts st (SocketMessage s raw) =
  set_app (fst (onMessage data (app st)))
    (WebSocketService.emit (Delivered onMessage data) st).
Proof.
  intros Hr Hh Hp. simpl. rewrite Hr. unfold onmessage. rewrite Hp, Hh.
  pose proof (onMessage_normal data (app st)) as Hn.
  destruct (onMessage data (app st)) as [d' c]. simpl in Hn. by subst c.
Qed.

End Delivery.

(** ** The dashboard's own service *)

Section MockSocketFacts.
Import Dashboard Analytics MockSocket.


Section Simulated.
Variable add : jsval -> jsval -> jsval.
Variable now : string.

Lemma simulated_frame_effect (frame : jsval) (ok failure : string) (a : App)
    (m : Service) :
  wsServiceRef a = Some m ->
  onMessageCallback m = Dashboard.onMessage ->
  state (dashboard (simulate_after ok failure frame a)) =
  state (fst (Dashboard.onMessage frame (setIsLoading false (dashboard a)))).
Proof.
  intros Hr Hm. unfold simulate_after, simulateMessage. rewrite Hr, Hm. simpl.
  set (d1 := Dashboard.emit _ (callApi_fulfilled ok (dashboard a))).
  pose proof (onMessage_normal frame d1) as Hn.
  destruct (Dashboard.onMessage frame d1) as [d' c] eqn:E. simpl in Hn. subst c.
  change d' with (fst (d', Normal)). rewrite <- E.
  apply onMessage_state_ext. reflexivity.
Qed.

(** X21.  A start request that is fulfilled makes the dashboard show the
    simulation as running, a stop request as stopped, by way of a status
    frame the handler makes up itself.  The snapshot of that frame is built
    from the render in which the button was clicked: apart from the status
    text, the vehicle total and the time stamp, every field, the emergency
    flag included, is set back to what that render saw.  Once the component
    is unmounted no frame is made up: only [isLoading] is reset. *)
Theorem simulated_start_and_stop (seen : DashboardState) (a : App) :
  (forall m : Service,
     wsServiceRef a = Some m -> onMessageCallback m = Dashboard.onMessage ->
     let started := state (dashboard (handleStartSimulation_fulfilled add now seen a)) in
     let stopped := state (dashboard (handleStopSimulation_fulfilled now seen a)) in
     isSimulationRunning started = Some true /\
     isSimulationRunning stopped = Some false /\
     isLoading started = false /\ isLoading stopped = false /\
     (forall k, k <> "system_status" -> k <> "total_vehicles" ->
                k <> "last_updated" ->
        opt_chain (intersectionStatus started) k =
        opt_chain (intersectionStatus seen) k) /\
     (forall k, k <> "system_status" -> k <> "last_updated" ->
        opt_chain (intersectionStatus stopped) k =
        opt_chain (intersectionStatus seen) k)) /\
  (wsServiceRef a = None ->
   state (dashboard (handleStartSimulation_fulfilled add now seen a)) =
   state (setIsLoading false (dashboard a)) /\
   state (dashboard (handleStopSimulation_fulfilled now seen a)) =
   state (setIsLoading false (dashboard a))).
Proof.
  split.
  - intros m Hr Hm. cbv zeta.
    unfold handleStartSimulation_fulfilled, handleStopSimulation_fulfilled.
    rewrite !(simulated_frame_effect _ _ _ a m Hr Hm).
    rewrite !onMessage_by_kind.
    change (kind_of (started_frame add now seen)) with Status.
    change (kind_of (stopped_frame now seen)) with Status.
    cbv zeta.
    assert (isRunning (payload (started_frame add now seen)) = Some (JBool true)) as ->.
    { unfold isRunning, started_frame, payload, opt_chain. simpl.
      rewrite !lookup_set_prop_ne by discriminate. by rewrite lookup_set_prop. }
    assert (isRunning (payload (stopped_frame now seen)) = Some (JBool false)) as ->.
    { unfold isRunning, stopped_frame, payload, opt_chain. simpl.
      rewrite !lookup_set_prop_ne by discriminate. by rewrite lookup_set_prop. }
    simpl. repeat split.
    + intros k H1 H2 H3. unfold opt_chain at 1. simpl.
      rewrite !lookup_set_prop_ne by done.
      unfold opt_chain. by destruct (intersectionStatus seen).
    + intros k H1 H2. unfold opt_chain at 1. simpl.
      rewrite !lookup_set_prop_ne by done.
      unfold opt_chain. by destruct (intersectionStatus seen).
  - intros Hr.
    unfold handleStartSimulation_fulfilled, handleStopSimulation_fulfilled,
      simulate_after, simulateMessage.
    rewrite Hr. split; reflexivity.
Qed.

End Simulated.

End MockSocketFacts.

(** ** Instances *)

Lemma never_gives_up_witness :
  Channel.outstanding
    (@WebSocketService.run unit (fun _ => None) (fun _ => true)
       (@WebSocketService.create unit (fun _ => true)
          "ws://localhost:8000/ws/traffic-updates" tt)
       [WebSocketService.SocketClose 0; WebSocketService.TimerFires 1;
        WebSocketService.SocketOpen 1; WebSocketService.SocketClose 1]).
Proof.
  apply (@never_gives_up unit (fun _ => None) (fun _ => true)). reflexivity.
Defined.

Lemma held_socket_is_live_witness :
  let st := @WebSocketService.run unit (fun _ => None) (fun _ => true)
              (@WebSocketService.create unit (fun _ => true)
                 "ws://localhost:8000/ws/traffic-updates" tt)
              [WebSocketService.SocketOpen 0; WebSocketService.SocketClosing 0] in
  WebSocketService.ws st = Some 0%nat /\
  WebSocketService.readyState 0 st = Some WebSocketService.CLOSING /\
  WebSocketService.live_sockets st = 1%nat /\
  WebSocketService.timers st = ∅ /\
  WebSocketService.isConnected st = false.
Proof.
  cbv zeta.
  destruct (@held_socket_is_live unit (fun _ => None) (fun _ => true)
              "ws://localhost:8000/ws/traffic-updates" tt
              [WebSocketService.SocketOpen 0; WebSocketService.SocketClosing 0]
              0%nat eq_refl) as (_ & H2 & H3 & _).
  split; [reflexivity|]. split; [reflexivity|].
  split; [exact H2|]. split; [exact H3 | reflexivity].
Defined.

Lemma sendMessage_only_when_open_witness :
  snd (Channel.sendMessage (JObj [("type", JStr "client_hello")])
         (@WebSocketService.run unit (fun _ => None) (fun _ => true)
            (@WebSocketService.create unit (fun _ => true)
               "ws://localhost:8000/ws/traffic-updates" tt)
            [WebSocketService.SocketClose 0; WebSocketService.TimerFires 1]))
  = None /\
  snd (Channel.sendMessage (JObj [("type", JStr "client_hello")])
         (@WebSocketService.run unit (fun _ => None) (fun _ => true)
            (@WebSocketService.create unit (fun _ => true)
               "ws://localhost:8000/ws/traffic-updates" tt)
            [WebSocketService.SocketOpen 0]))
  = Some (0%nat, JObj [("type", JStr "client_hello")]).
Proof.
  split.
  - apply (proj2 (proj2 (proj2 (proj2
             (@sendMessage_only_when_open unit (fun _ => None) (fun _ => true)
                "ws://localhost:8000/ws/traffic-updates" tt
                [WebSocketService.SocketClose 0; WebSocketService.TimerFires 1]
                (JObj [("type", JStr "client_hello")])))))).
    reflexivity.
  - apply (proj1 (proj2 (proj2
             (@sendMessage_only_when_open unit (fun _ => None) (fun _ => true)
                "ws://localhost:8000/ws/traffic-updates" tt
                [WebSocketService.SocketOpen 0]
                (JObj [("type", JStr "client_hello")])))));
      reflexivity.
Defined.

Lemma delays_stay_in_range_witness :
  (5000 <= 75000 # 10)%Q /\ (75000 # 10 <= 30000)%Q.
Proof.
  apply (proj2 (proj2 (proj2
           (@delays_stay_in_range unit (fun _ => None) (fun _ => true)
              "ws://localhost:8000/ws/traffic-updates" tt
              [WebSocketService.SocketClose 0; WebSocketService.TimerFires 1;
               WebSocketService.SocketClose 1]))) 2%nat).
  reflexivity.
Defined.

Lemma backoff_reaches_cap_witness :
  exists d,
    WebSocketService.scheduled_delay
      (@WebSocketService.failures unit (fun _ => None) (fun _ => true) 8
         (@WebSocketService.create unit (fun _ => true)
            "ws://localhost:8000/ws/traffic-updates" tt)) = Some d /\
    ((8 <= 5)%nat -> d == 5000 * 1.5 ^ (Z.of_nat 8 - 1) /\ (d < 30000)%Q) /\
    ((6 <= 8)%nat -> d == 30000).
Proof.
  apply (@backoff_reaches_cap unit (fun _ => None) (fun _ => true));
    [reflexivity | lia].
Defined.

Lemma rejected_url_keeps_retrying_witness :
  let st := Nat.iter 2 (@WebSocketService.fire unit (fun _ => None) (fun _ => false))
              (@WebSocketService.create unit (fun _ => false) "not a url" tt) in
  WebSocketService.sockets st = [] /\ WebSocketService.ws st = None /\
  WebSocketService.attempts st = 3%nat /\
  exists d,
    WebSocketService.scheduled_delay st = Some d /\
    d == Qmin 30000 (5000 * 1.5 ^ Z.of_nat 2).
Proof.
  apply (@rejected_url_keeps_retrying unit (fun _ => None) (fun _ => false)).
  reflexivity.
Defined.

Lemma disconnect_between_attempts_is_final_witness :
  let st := @WebSocketService.run unit (fun _ => None) (fun _ => true)
              (@WebSocketService.create unit (fun _ => true)
                 "ws://localhost:8000/ws/traffic-updates" tt)
              [WebSocketService.SocketClose 0] in
  WebSocketService.quiescent (WebSocketService.disconnect st) /\
  WebSocketService.attempts
    (@WebSocketService.run unit (fun _ => None) (fun _ => true)
       (WebSocketService.disconnect st)
       [WebSocketService.TimerFires 1; WebSocketService.SocketClose 0]) =
  WebSocketService.attempts st.
Proof.
  apply (@disconnect_between_attempts_is_final unit (fun _ => None) (fun _ => true)).
  reflexivity.
Defined.

Lemma pushed_detection_is_wiped_off_tab_witness :
  Dashboard.detectionResults
    (Dashboard.state (fst (Dashboard.onMessage Dashboard.detection_frame Dashboard.mount)))
  = Dashboard.payload Dashboard.detection_frame /\
  snd (Analytics.tab_effect
         (fst (Dashboard.onMessage Dashboard.detection_frame Dashboard.mount)))
  = true.
Proof.
  destruct (pushed_detection_is_wiped_off_tab Dashboard.detection_frame
              Dashboard.mount eq_refl)
    as (H1 & _ & _ & _ & _ & _ & _ & _ & H9 & _).
  split; [exact H1 | exact H9].
Defined.

Lemma alert_frame_keeps_the_rest_witness :
  let d := Dashboard.setIntersectionStatus
             (JObj [("total_vehicles", JNum 42); ("system_status", JStr "operational")])
             Dashboard.mount in
  let data :=
    JObj [("type", JStr "emergency_alert");
          ("data", JObj [("is_active", JBool true);
                         ("emergency_type", JObj [("toString", JNum 1)]);
                         ("detected_lane", JStr "north")])] in
  Analytics.toasts (fst (Dashboard.onMessage data d)) = Analytics.toasts d /\
  Dashboard.emergency_mode_active
    (Dashboard.state (fst (Dashboard.onMessage data d))) = JBool true /\
  Dashboard.isSimulationRunning
    (Dashboard.state (fst (Dashboard.onMessage data d))) =
  Dashboard.isSimulationRunning (Dashboard.state d).
Proof.
  cbv zeta.
  destruct (alert_frame_keeps_the_rest
              (JObj [("type", JStr "emergency_alert");
                     ("data", JObj [("is_active", JBool true);
                                    ("emergency_type", JObj [("toString", JNum 1)]);
                                    ("detected_lane", JStr "north")])])
              (Dashboard.setIntersectionStatus
                 (JObj [("total_vehicles", JNum 42);
                        ("system_status", JStr "operational")])
                 Dashboard.mount) eq_refl)
    as (_ & _ & _ & H & _ & _ & _ & Ht).
  split; [|split; [reflexivity | exact H]].
  rewrite Ht. reflexivity.
Defined.

Lemma close_disables_the_controls_witness :
  Analytics.toasts (Dashboard.onClose 1000 Dashboard.mount) =
  Analytics.toasts Dashboard.mount /\
  Analytics.toasts (Dashboard.onClose 1006 Dashboard.mount) =
  (Analytics.toasts Dashboard.mount ++
   [Dashboard.Toast Dashboard.ToastError
      "Real-time connection lost. Attempting to reconnect..." []])%list.
Proof.
  split.
  - apply (close_disables_the_controls 1000 Dashboard.mount). by left.
  - apply (close_disables_the_controls 1006 Dashboard.mount); discriminate.
Defined.


Lemma drop_from_start_to_end_witness :
  Dashboard.state
    (Dashboard.onDrop_fulfilled (JObj [("total_vehicles", JNum 12)])
       (Dashboard.onDrop ["junction.png"; "other.png"] Dashboard.mount))
  = Dashboard.state
      (Dashboard.setIsLoading false
         (Dashboard.setActiveTab Dashboard.detection_tab
            (Dashboard.setDetectionResults (JObj [("total_vehicles", JNum 12)])
               Dashboard.mount))) /\
  Dashboard.state
    (Dashboard.onDrop_fulfilled
       (JObj [("total_vehicles", JObj [("toString", JNum 1)])])
       (Dashboard.onDrop ["junction.png"; "other.png"] Dashboard.mount))
  = Dashboard.state
      (Dashboard.setIsLoading false
         (Dashboard.setDetectionResults
            (JObj [("total_vehicles", JObj [("toString", JNum 1)])])
            Dashboard.mount)).
Proof.
  destruct drop_from_start_to_end as (_ & _ & _ & H). split.
  - apply (proj1 (H "junction.png" ["other.png"]
                    (JObj [("total_vehicles", JNum 12)]) Dashboard.mount));
      reflexivity.
  - apply (proj2 (H "junction.png" ["other.png"]
                    (JObj [("total_vehicles", JObj [("toString", JNum 1)])])
                    Dashboard.mount)).
    right. reflexivity.
Defined.

Lemma click_toggles_witness :
  let d := Dashboard.setIsSimulationRunning true
             (Dashboard.setIsConnecting false Dashboard.mount) in
  Dashboard.invocations (Dashboard.click_button d) =
  (Dashboard.invocations d ++ [Dashboard.Invoke Dashboard.stopSimulation])%list.
Proof.
  cbv zeta.
  apply (click_toggles
           (Dashboard.setIsSimulationRunning true
              (Dashboard.setIsConnecting false Dashboard.mount))).
  reflexivity.
Defined.

Lemma socket_handlers_see_the_first_render_witness :
  let d := Dashboard.setIsLoading true Dashboard.mount in
  Dashboard.invocations (Dashboard.fetchInitialStatus (Dashboard.state d) d) =
  Dashboard.invocations d /\
  Dashboard.invocations (Dashboard.step d Dashboard.Opened) =
  (Dashboard.invocations d ++ [Dashboard.Invoke Dashboard.getIntersectionStatus])%list.
Proof.
  cbv zeta.
  destruct (socket_handlers_see_the_first_render
              (Dashboard.setIsLoading true Dashboard.mount))
    as (H1 & _ & _ & H4 & _).
  split; [apply H4; reflexivity | exact H1].
Defined.

Lemma fetched_status_acts_like_a_frame_witness :
  let status := JObj [("system_status", JStr "operational")] in
  Dashboard.state (Dashboard.fetchInitialStatus_fetched status Dashboard.mount) =
  Dashboard.state
    (Dashboard.setIsLoading false
       (fst (Dashboard.onMessage
               (JObj [("type", JStr "intersection_status"); ("data", status)])
               Dashboard.mount))).
Proof.
  cbv zeta.
  apply (proj1 (fetched_status_acts_like_a_frame
                  (JObj [("system_status", JStr "operational")]) Dashboard.mount)).
  discriminate.
Defined.

Lemma analytics_load_cycle_witness :
  let d := Analytics.loadAnalytics_fulfilled (JObj [("period", JStr "daily")])
             (Analytics.loadAnalytics Dashboard.mount) in
  Analytics.loadAnalytics d = d.
Proof.
  cbv zeta.
  apply (proj1 analytics_load_cycle). right. reflexivity.
Defined.

Lemma parsed_frame_is_delivered_once_witness :
  let parse (raw : string) : option jsval := Some (Dashboard.status_frame raw) in
  let st := WebSocketService.run parse (fun _ => true)
              (WebSocketService.create (fun _ => true)
                 "ws://localhost:8000/ws/traffic-updates" Dashboard.mount)
              [WebSocketService.CallOnMessage Dashboard.onMessage;
               WebSocketService.SocketOpen 0] in
  WebSocketService.step parse (fun _ => true) st
    (WebSocketService.SocketMessage 0 "operational") =
  WebSocketService.set_app
    (fst (Dashboard.onMessage (Dashboard.status_frame "operational")
            (WebSocketService.app st)))
    (WebSocketService.emit
       (WebSocketService.Delivered Dashboard.onMessage
          (Dashboard.status_frame "operational")) st).
Proof.
  cbv zeta.
  apply (parsed_frame_is_delivered_once
           (fun raw => Some (Dashboard.status_frame raw)) (fun _ => true));
    reflexivity.
Defined.

Lemma simulated_start_and_stop_witness :
  let a := MockSocket.mount_effect
             {| MockSocket.wsServiceRef := None;
                MockSocket.dashboard := Dashboard.mount |} in
  Dashboard.isSimulationRunning
    (Dashboard.state
       (MockSocket.dashboard
          (MockSocket.handleStartSimulation_fulfilled (fun v _ => v)
             "2025-01-01T00:00:00.000Z" Dashboard.initialState a)))
  = Some true.
Proof.
  cbv zeta.
  eapply (proj1 (simulated_start_and_stop (fun v _ => v)
                   "2025-01-01T00:00:00.000Z" Dashboard.initialState
                   (MockSocket.mount_effect
                      {| MockSocket.wsServiceRef := None;
                         MockSocket.dashboard := Dashboard.mount |}))).
  - reflexivity.
  - reflexivity.
Defined.
